(** * Task Management API: the filtering, update and identifier logic

    A shallow embedding of the three task-API variants of the repository

      - [les2/oefening1/main.py]   in-memory store ([TASKS_DB], a [dict])
      - [async_example/main.py]    SQLAlchemy on SQLite
      - [main.py]                  SQLModel on PostgreSQL

    together with the properties their listing, lookup, creation and patch
    operations satisfy. *)

From Stdlib Require Import String Ascii DecimalString DecimalZ ZArith NArith List
  Bool Lia.
Import ListNotations.
Open Scope Z_scope.

Set Implicit Arguments.

(* ===================================================================== *)
(** * Python values *)
(* ===================================================================== *)

Module Py.

(** A Python [str] is a sequence of Unicode code points. *)
Definition codepoint := N.
Definition str := list codepoint.

(** A literal of the source, read code point by code point. *)
Definition lit (s : string) : str := map N_of_ascii (list_ascii_of_string s).

(** [str.lower()].  The Unicode case tables live in the interpreter, not in
    the repository, so the operation is an interface; every property below
    holds for any implementation of it. *)
Class StrLower := lower : str -> str.

(** The case mapping of CPython on code points below 256 (A-Z, and the
    Latin-1 capitals U+00C0..U+00DE except the multiplication sign); other
    code points are left alone by this instance. *)
Definition lower_cp (c : codepoint) : codepoint :=
  if ((65 <=? c) && (c <=? 90))%N then (c + 32)%N
  else if ((192 <=? c) && (c <=? 222) && negb (c =? 215))%N then (c + 32)%N
  else c.

Definition lower_latin1 : StrLower := map lower_cp.

(** [s.startswith(p)] *)
Fixpoint startswith (p s : str) : bool :=
  match p, s with
  | [], _ => true
  | _ :: _, [] => false
  | a :: p', b :: s' => (a =? b)%N && startswith p' s'
  end.

(** [needle in hay] for two strings: some suffix of [hay] starts with
    [needle]. *)
Fixpoint contains (needle hay : str) : bool :=
  startswith needle hay
  || match hay with
     | [] => false
     | _ :: hay' => contains needle hay'
     end.

(** Truthiness of an optional string ([if query:]): [None] and [""] are
    falsy. *)
Definition truthy (o : option str) : bool :=
  match o with
  | None => false
  | Some [] => false
  | Some (_ :: _) => true
  end.

(** [max(xs, default=d)]: the default is used only for an empty iterable. *)
Definition max_default (xs : list Z) (d : Z) : Z :=
  match xs with
  | [] => d
  | x :: xs' => fold_left Z.max xs' x
  end.

(** Exceptions the modelled code can raise. *)
Inductive exn :=
| HTTPException (status_code : Z) (detail : string)
| RequestValidationError
| ValidationError
| TypeError
| AttributeError
| NotImplementedError
| OverflowError
| UnicodeEncodeError
| OperationalError.

Definition HTTP_404_NOT_FOUND : Z := 404.
Definition HTTP_422_UNPROCESSABLE_ENTITY : Z := 422.

(** The specification's reading of "contains": [a] occurs in [b]. *)
Definition substring (a b : str) : Prop :=
  exists pre post, b = pre ++ a ++ post.

End Py.

(* ===================================================================== *)
(** * Raising computations *)
(* ===================================================================== *)

Class Monad (M : Type -> Type) := {
  ret : forall {A}, A -> M A;
  bind : forall {A B}, M A -> (A -> M B) -> M B
}.

Declare Scope monad_scope.
Delimit Scope monad_scope with monad.
Notation "x <- c1 ;; c2" := (bind c1 (fun x => c2))
  (at level 61, c1 at next level, right associativity) : monad_scope.
Notation "c1 ;; c2" := (bind c1 (fun _ => c2))
  (at level 61, right associativity) : monad_scope.
Open Scope monad_scope.

(** An expression that returns or raises. *)
Definition Exc (A : Type) : Type := Py.exn + A.

#[export] Instance Monad_Exc : Monad Exc := {
  ret := fun A a => inr a;
  bind := fun A B m k => match m with inl e => inl e | inr a => k a end
}.

(** A list comprehension [[t for t in xs if p(t)]] whose condition may
    raise: the first exception aborts the whole comprehension. *)
Fixpoint comprehension {A} (p : A -> Exc bool) (xs : list A) : Exc (list A) :=
  match xs with
  | [] => ret []
  | x :: xs' =>
      b <- p x ;;
      rest <- comprehension p xs' ;;
      ret (if b then x :: rest else rest)
  end.

(** The outcome of a condition that did not raise. *)
Definition holds {A} (p : A -> Exc bool) (x : A) : bool :=
  match p x with
  | inr b => b
  | inl _ => false
  end.

(** [sub] is obtained from [l] by dropping elements: same elements, same
    relative order. *)
Inductive subsequence {A} : list A -> list A -> Prop :=
| subsequence_nil : subsequence [] []
| subsequence_keep x sub l : subsequence sub l -> subsequence (x :: sub) (x :: l)
| subsequence_drop x sub l : subsequence sub l -> subsequence sub (x :: l).

(* ===================================================================== *)
(** * Insertion-ordered dictionaries with integer keys *)
(* ===================================================================== *)

Module PyDict.
Section Dict.
Variable V : Type.

(** Entries in insertion order. *)
Definition t := list (Z * V).

Definition empty : t := [].

Definition keys (d : t) : list Z := map fst d.
Definition values (d : t) : list V := map snd d.

(** [d.get(k)] *)
Fixpoint get (k : Z) (d : t) : option V :=
  match d with
  | [] => None
  | (k', v) :: d' => if k =? k' then Some v else get k d'
  end.

(** [d[k] = v]: an existing key keeps its position, a new key goes last. *)
Fixpoint setitem (k : Z) (v : V) (d : t) : t :=
  match d with
  | [] => [(k, v)]
  | (k', v') :: d' =>
      if k =? k' then (k', v) :: d' else (k', v') :: setitem k v d'
  end.

End Dict.
End PyDict.

(* ===================================================================== *)
(** * The request layer: declared parameter constraints *)
(* ===================================================================== *)

Module Request.

(** What a client sent for an integer parameter: text that reads as an
    integer, or anything else. *)
Inductive raw_int :=
| int_text (z : Z)
| malformed.

(** The numeric constraints of [Query(...)], [Cookie(...)], [Field(...)]. *)
Record int_constraints := { ge : option Z; le : option Z }.

(** The length constraint of a string parameter. *)
Record str_constraints := { min_length : option nat }.

Definition no_int_constraints : int_constraints := {| ge := None; le := None |}.

Definition satisfies_int (c : int_constraints) (z : Z) : bool :=
  match ge c with Some lo => lo <=? z | None => true end
  && match le c with Some hi => z <=? hi | None => true end.

Definition satisfies_str (c : str_constraints) (s : Py.str) : bool :=
  match min_length c with Some n => (n <=? length s)%nat | None => true end.

(** An optional integer parameter ([int | None], default [None]). *)
Definition optional_int (c : int_constraints) (raw : option raw_int) : Exc (option Z) :=
  match raw with
  | None => inr None
  | Some malformed => inl Py.RequestValidationError
  | Some (int_text z) =>
      if satisfies_int c z then inr (Some z) else inl Py.RequestValidationError
  end.

(** An optional string parameter ([str | None], default [None]). *)
Definition optional_str (c : str_constraints) (raw : option Py.str) : Exc (option Py.str) :=
  match raw with
  | None => inr None
  | Some s =>
      if satisfies_str c s then inr (Some s) else inl Py.RequestValidationError
  end.

(** The parameters of [list_tasks], declared alike in the three variants:
    [min_priority: Annotated[int | None, Query(ge=1)]],
    [query: Annotated[str | None, Query(alias="q", min_length=3)]],
    [cookie_min_priority: Annotated[int | None, Cookie(alias="min_priority")]]. *)
Definition min_priority_param : int_constraints := {| ge := Some 1; le := None |}.
Definition query_param : str_constraints := {| min_length := Some 3%nat |}.
Definition cookie_min_priority_param : int_constraints := no_int_constraints.

(** [Preference.min_priority: Annotated[int, Field(ge=1, le=5)]] *)
Definition Preference_min_priority : int_constraints := {| ge := Some 1; le := Some 5 |}.

(** The status line of the response to a handler's outcome: an
    [HTTPException] carries its own code, a request that fails validation is
    answered 422, any other exception 500. *)
Definition status_of {A} (r : Exc A) : Z :=
  match r with
  | inr _ => 200
  | inl (Py.HTTPException code _) => code
  | inl Py.RequestValidationError => Py.HTTP_422_UNPROCESSABLE_ENTITY
  | inl _ => 500
  end.

End Request.

(* ===================================================================== *)
(** * The in-memory variant: [les2/oefening1/main.py] *)
(* ===================================================================== *)

Module InMemory.

(** [datetime], as a point on a time line. *)
Definition datetime := Z.

(** [class TaskCreate(BaseModel)] *)
Module TaskCreate.
Record t := mk {
  title : Py.str;
  description : option Py.str;
  priority : Z
}.

(** [Field(min_length=3)] on [title], [Field(ge=1, le=5)] on [priority]. *)
Definition validate (x : t) : bool :=
  (3 <=? length (title x))%nat && (1 <=? priority x) && (priority x <=? 5).
End TaskCreate.

(** [class TaskInternal(TaskExternal)].  The declared types are [str],
    [str | None] and [int]; [model_copy(update=...)] does not validate, so a
    stored record can hold [None] in [title] and [priority] after a patch
    that sets them to null.  The fields are typed with what a stored record
    can hold. *)
Module TaskInternal.
Record t := mk {
  task_id : Z;
  title : option Py.str;
  description : option Py.str;
  priority : option Z;
  created_at : datetime
}.

(** The record carries what its declaration says: a title and a priority. *)
Definition well_typed (x : t) : bool :=
  match title x, priority x with
  | Some _, Some _ => true
  | _, _ => false
  end.
End TaskInternal.

(** [class TaskUpdate(TaskCreate)]: every field is optional, and pydantic
    remembers which ones the payload set ([model_fields_set]).  The outer
    [option] is "set by the payload", the inner one the value, which may be
    null. *)
Module TaskUpdate.
Record t := mk {
  title : option (option Py.str);
  description : option (option Py.str);
  priority : option (option Z)
}.
End TaskUpdate.

(** One entry of the dict [model_dump(exclude_unset=True)] returns. *)
Inductive assignment :=
| set_title (v : option Py.str)
| set_description (v : option Py.str)
| set_priority (v : option Z).

(** [task_data.model_dump(exclude_unset=True)]: the fields the payload set,
    in declaration order. *)
Definition model_dump_exclude_unset (task_data : TaskUpdate.t) : list assignment :=
  match TaskUpdate.title task_data with Some v => [set_title v] | None => [] end
  ++ match TaskUpdate.description task_data with
     | Some v => [set_description v] | None => [] end
  ++ match TaskUpdate.priority task_data with
     | Some v => [set_priority v] | None => [] end.

Definition assign (x : TaskInternal.t) (a : assignment) : TaskInternal.t :=
  match a with
  | set_title v =>
      TaskInternal.mk (TaskInternal.task_id x) v (TaskInternal.description x)
        (TaskInternal.priority x) (TaskInternal.created_at x)
  | set_description v =>
      TaskInternal.mk (TaskInternal.task_id x) (TaskInternal.title x) v
        (TaskInternal.priority x) (TaskInternal.created_at x)
  | set_priority v =>
      TaskInternal.mk (TaskInternal.task_id x) (TaskInternal.title x)
        (TaskInternal.description x) v (TaskInternal.created_at x)
  end.

(** [stored_task.model_copy(update=update_data)]: a copy on which every
    entry of [update_data] is written, without validation. *)
Definition model_copy (x : TaskInternal.t) (update : list assignment) : TaskInternal.t :=
  fold_left assign update x.

(** [TASKS_DB: dict[int, TaskInternal]] *)
Definition TASKS_DB := PyDict.t TaskInternal.t.

(** A request handler: it reads and writes the module-level [TASKS_DB] and
    returns or raises.  What was written before an exception stays written. *)
Definition Handler (A : Type) : Type := TASKS_DB -> Exc A * TASKS_DB.

#[export] Instance Monad_Handler : Monad Handler := {
  ret := fun A a db => (inr a, db);
  bind := fun A B m k db =>
    match m db with
    | (inl e, db') => (inl e, db')
    | (inr a, db') => k a db'
    end
}.

Definition read_db : Handler TASKS_DB := fun db => (inr db, db).
Definition write_db (k : Z) (v : TaskInternal.t) : Handler unit :=
  fun db => (inr tt, PyDict.setitem k v db).
Definition raise {A} (e : Py.exn) : Handler A := fun db => (inl e, db).
Definition lift {A} (m : Exc A) : Handler A := fun db => (m, db).

(** [TaskInternal(task_id=next_task_id, **task.model_dump())]: the fields
    are validated again, [created_at] comes from its default factory (the
    clock, read as [now]). *)
Definition TaskInternal_new (task_id : Z) (task : TaskCreate.t) (now : datetime)
  : Exc TaskInternal.t :=
  if TaskCreate.validate task
  then inr (TaskInternal.mk task_id (Some (TaskCreate.title task))
              (TaskCreate.description task) (Some (TaskCreate.priority task)) now)
  else inl Py.ValidationError.

(** [def create_task(task: TaskCreate)] *)
Definition create_task (task : TaskCreate.t) (now : datetime) : Handler TaskInternal.t :=
  db <- read_db ;;
  let next_task_id := Py.max_default (PyDict.keys db) 0 + 1 in
  new_task <- lift (TaskInternal_new next_task_id task now) ;;
  write_db next_task_id new_task ;;
  ret new_task.

(** [def get_task(task_id: TaskId)]: the [KeyError] of [TASKS_DB[task_id]]
    is turned into a 404. *)
Definition get_task (task_id : Z) : Handler TaskInternal.t :=
  db <- read_db ;;
  match PyDict.get task_id db with
  | Some t => ret t
  | None => raise (Py.HTTPException Py.HTTP_404_NOT_FOUND "Task not found")
  end.

Section Listing.
Context {L : Py.StrLower}.

(** [t.priority >= min_priority]: comparing [None] with an [int] raises. *)
Definition priority_ge (min_priority : Z) (t : TaskInternal.t) : Exc bool :=
  match TaskInternal.priority t with
  | Some p => inr (min_priority <=? p)
  | None => inl Py.TypeError
  end.

(** [query.lower() in t.title.lower()]: [None] has no [lower]. *)
Definition title_matches (query : Py.str) (t : TaskInternal.t) : Exc bool :=
  match TaskInternal.title t with
  | Some title => inr (Py.contains (Py.lower query) (Py.lower title))
  | None => inl Py.AttributeError
  end.

(** Lines 85-94 of [list_tasks], on the sequence [results] taken from the
    store in line 83. *)
Definition filter_results (results : list TaskInternal.t)
    (min_priority : option Z) (query : option Py.str)
    (cookie_min_priority : option Z) : Exc (list TaskInternal.t) :=
  let min_priority :=
    match min_priority, cookie_min_priority with
    | None, Some c => Some c
    | _, _ => min_priority
    end in
  results <- match min_priority with
             | Some p => comprehension (priority_ge p) results
             | None => ret results
             end ;;
  results <- match query with
             | Some q =>
                 if Py.truthy query
                 then comprehension (title_matches q) results
                 else ret results
             | None => ret results
             end ;;
  ret results.

(** [def list_tasks(min_priority, query, cookie_min_priority)] *)
Definition list_tasks (min_priority : option Z) (query : option Py.str)
    (cookie_min_priority : option Z) : Handler (list TaskInternal.t) :=
  db <- read_db ;;
  lift (filter_results (PyDict.values db) min_priority query cookie_min_priority).

(** The route [GET /tasks]: the framework checks the declared parameters and
    calls [list_tasks] only when all of them pass. *)
Definition GET_tasks (min_priority : option Request.raw_int) (q : option Py.str)
    (cookie_min_priority : option Request.raw_int) : Handler (list TaskInternal.t) :=
  min_priority <- lift (Request.optional_int Request.min_priority_param min_priority) ;;
  query <- lift (Request.optional_str Request.query_param q) ;;
  cookie_min_priority <-
    lift (Request.optional_int Request.cookie_min_priority_param cookie_min_priority) ;;
  list_tasks min_priority query cookie_min_priority.

End Listing.

(** [def update_task(task_id: TaskId, task_data: TaskUpdate)] *)
Definition update_task (task_id : Z) (task_data : TaskUpdate.t) : Handler TaskInternal.t :=
  db <- read_db ;;
  match PyDict.get task_id db with
  | None => raise (Py.HTTPException Py.HTTP_404_NOT_FOUND "Task not found")
  | Some stored_task =>
      let update_data := model_dump_exclude_unset task_data in
      let updated_task := model_copy stored_task update_data in
      write_db task_id updated_task ;;
      ret updated_task
  end.

End InMemory.

(* ===================================================================== *)
(** * The SQL variants: the statements the handlers build *)
(* ===================================================================== *)

Module Sql.

(** Text-valued column expressions. *)
Inductive text_expr :=
| Title                          (* StoredTask.title *)
| Lower_text (e : text_expr).    (* func.lower(e) *)

(** Criteria handed to [.where(...)]. *)
Inductive criterion :=
| Priority_ge (p : Z)                           (* StoredTask.priority >= p *)
| Contains (e : text_expr) (other : Py.str)     (* e.contains(other) *)
| Lower_of (c : criterion).                     (* func.lower(c) *)

(** A [select(StoredTask)] statement as the handlers build it: the criteria
    of its WHERE clause, joined by AND.  No handler adds an ORDER BY. *)
Record Select := {
  whereclause : list criterion
}.

Definition select_StoredTask : Select := {| whereclause := [] |}.

(** [db_query.where(c)] *)
Definition where_ (db_query : Select) (c : criterion) : Select :=
  {| whereclause := whereclause db_query ++ [c] |}.

End Sql.

(** ** [main.py]: SQLModel *)
Module Main.
Section Listing.
Context {L : Py.StrLower}.

(** [StoredTask.priority >= min_priority] (line 160).  In this variant
    [StoredTask.priority] is the [Relationship] of line 80, the column being
    [priority_id]; the comparator of a relationship implements no ordering,
    so evaluating the comparison raises before any statement is built. *)
Definition priority_ge (min_priority : Z) : Exc Sql.criterion :=
  inl Py.NotImplementedError.

(** The statement [list_tasks] builds (lines 154-165). *)
Definition db_query (min_priority : option Z) (query : option Py.str)
    (cookie_min_priority : option Z) : Exc Sql.Select :=
  let db_query := Sql.select_StoredTask in
  let min_priority :=
    match min_priority, cookie_min_priority with
    | None, Some c => Some c
    | _, _ => min_priority
    end in
  db_query <- match min_priority with
              | Some p => c <- priority_ge p ;; ret (Sql.where_ db_query c)
              | None => ret db_query
              end ;;
  let db_query :=
    match query with
    | Some q =>
        if Py.truthy query
        then Sql.where_ db_query
               (Sql.Contains (Sql.Lower_text Sql.Title) (Py.lower q))
        else db_query
    | None => db_query
    end in
  ret db_query.

End Listing.
End Main.

(** ** [async_example/main.py]: SQLAlchemy on SQLite *)
Module AsyncExample.

(** A row of the table [todos] ([class StoredTask(Base)]); every column is
    declared [Mapped[T]] without [Optional], hence NOT NULL. *)
Module StoredTask.
Record t := mk {
  task_id : Z;
  title : Py.str;
  description : Py.str;
  priority : Z;
  created_at : Z
}.
End StoredTask.

Section Listing.
Context {L : Py.StrLower}.

(** The statement [list_tasks] executes (lines 134-143). *)
Definition db_query (min_priority : option Z) (query : option Py.str)
    (cookie_min_priority : option Z) : Sql.Select :=
  let db_query := Sql.select_StoredTask in
  let min_priority :=
    match min_priority, cookie_min_priority with
    | None, Some c => Some c
    | _, _ => min_priority
    end in
  let db_query :=
    match min_priority with
    | Some p => Sql.where_ db_query (Sql.Priority_ge p)
    | None => db_query
    end in
  let db_query :=
    match query with
    | Some q =>
        if Py.truthy query
        then Sql.where_ db_query
               (Sql.Lower_of (Sql.Contains Sql.Title (Py.lower q)))
        else db_query
    | None => db_query
    end in
  db_query.

End Listing.

(** *** The engine: SQLite ([DATABASE_URL = "sqlite+aiosqlite:///./tasks.db"]) *)

Definition percent : Py.codepoint := 37%N.
Definition underscore : Py.codepoint := 95%N.

(** An INTEGER of SQLite is a signed 64-bit number: binding a Python [int]
    outside this range raises [OverflowError]. *)
Definition fits_int64 (z : Z) : bool :=
  (- 2 ^ 63 <=? z) && (z <=? 2 ^ 63 - 1).

(** A [str] is bound as its UTF-8 encoding, which a surrogate code point
    (U+D800..U+DFFF) does not have: binding it raises [UnicodeEncodeError]. *)
Definition encodable (s : Py.str) : bool :=
  forallb (fun c => negb ((55296 <=? c) && (c <=? 57343))%N) s.

(** The number of bytes of a code point, and of a string, in UTF-8. *)
Definition utf8_len (c : Py.codepoint) : N :=
  if (c <? 128)%N then 1%N
  else if (c <? 2048)%N then 2%N
  else if (c <? 65536)%N then 3%N
  else 4%N.

Definition utf8_bytes (s : Py.str) : N :=
  fold_right (fun c n => (utf8_len c + n)%N) 0%N s.

(** The longest LIKE pattern the engine takes, in bytes (the default of
    SQLITE_MAX_LIKE_PATTERN_LENGTH). *)
Definition SQLITE_MAX_LIKE_PATTERN_LENGTH : N := 50000%N.

(** SQLite folds case for the 26 ASCII letters only, in [lower()] and in
    [LIKE]. *)
Definition ascii_lower_cp (c : Py.codepoint) : Py.codepoint :=
  if ((65 <=? c) && (c <=? 90))%N then (c + 32)%N else c.

Definition sqlite_lower (s : Py.str) : Py.str := map ascii_lower_cp s.

(** LIKE reads its two operands as C strings: each ends at its first
    U+0000. *)
Fixpoint until_nul (s : Py.str) : Py.str :=
  match s with
  | [] => []
  | c :: s' => if (c =? 0)%N then [] else c :: until_nul s'
  end.

(** The comparison of a pattern with a string: [%] matches any run of
    characters, [_] any one character, every other character itself up to
    ASCII case; no escape character unless an ESCAPE clause names one. *)
Fixpoint pattern_compare (pattern : Py.str) : Py.str -> bool :=
  match pattern with
  | [] => fun s => match s with [] => true | _ :: _ => false end
  | c :: pattern' =>
      if (c =? percent)%N then
        fix any_run (s : Py.str) : bool :=
          pattern_compare pattern' s
          || match s with [] => false | _ :: s' => any_run s' end
      else if (c =? underscore)%N then
        fun s =>
          match s with [] => false | _ :: s' => pattern_compare pattern' s' end
      else
        fun s =>
          match s with
          | [] => false
          | d :: s' =>
              (ascii_lower_cp c =? ascii_lower_cp d)%N && pattern_compare pattern' s'
          end
  end.

(** [s LIKE pattern]: a pattern of more bytes than the limit is an error
    ("LIKE or GLOB pattern too complex"), raised when the operator is
    evaluated. *)
Definition like (pattern s : Py.str) : Exc bool :=
  if (SQLITE_MAX_LIKE_PATTERN_LENGTH <? utf8_bytes pattern)%N
  then inl Py.OperationalError
  else inr (pattern_compare (until_nul pattern) (until_nul s)).

(** Values of the SQL expressions the handler builds. *)
Inductive value :=
| Integer (z : Z)
| Text (s : Py.str).

Definition of_bool (b : bool) : value := Integer (if b then 1 else 0).

(** [lower(X)]: an integer argument is rendered in decimal first. *)
Definition lower_value (v : value) : value :=
  match v with
  | Text s => Text (sqlite_lower s)
  | Integer z => Text (Py.lit (NilEmpty.string_of_int (Z.to_int z)))
  end.

(** Truth of a WHERE operand: the value is cast to a number, zero is false.
    Text is cast by its leading sign and decimal digits. *)
Fixpoint leading_digits (s : Py.str) (acc : N) : N :=
  match s with
  | [] => acc
  | c :: s' =>
      if ((48 <=? c) && (c <=? 57))%N
      then leading_digits s' (10 * acc + (c - 48))%N
      else acc
  end.

Definition leading_number (s : Py.str) : N :=
  match s with
  | c :: s' => if ((c =? 43) || (c =? 45))%N then leading_digits s' 0
               else leading_digits s 0
  | [] => 0%N
  end.

Definition truth (v : value) : bool :=
  match v with
  | Integer z => negb (z =? 0)
  | Text s => negb (leading_number s =? 0)%N
  end.

Fixpoint eval_text (row : StoredTask.t) (e : Sql.text_expr) : Py.str :=
  match e with
  | Sql.Title => StoredTask.title row
  | Sql.Lower_text e' => sqlite_lower (eval_text row e')
  end.

(** [e.contains(other)] is rendered [e LIKE '%' || other || '%']. *)
Fixpoint eval (row : StoredTask.t) (c : Sql.criterion) : Exc value :=
  match c with
  | Sql.Priority_ge p => ret (of_bool (p <=? StoredTask.priority row))
  | Sql.Contains e other =>
      b <- like (percent :: other ++ [percent]) (eval_text row e) ;;
      ret (of_bool b)
  | Sql.Lower_of c' => v <- eval row c' ;; ret (lower_value v)
  end.

(** The criteria of a WHERE clause on one row: they are tried in the order
    they were added, and the first one that is false settles the row. *)
Fixpoint holds_all (row : StoredTask.t) (criteria : list Sql.criterion) : Exc bool :=
  match criteria with
  | [] => ret true
  | c :: criteria' =>
      v <- eval row c ;;
      if truth v then holds_all row criteria' else ret false
  end.

(** Binding the parameters of a statement, in order. *)
Fixpoint bind_criterion (c : Sql.criterion) : Exc unit :=
  match c with
  | Sql.Priority_ge p => if fits_int64 p then ret tt else inl Py.OverflowError
  | Sql.Contains _ other =>
      if encodable other then ret tt else inl Py.UnicodeEncodeError
  | Sql.Lower_of c' => bind_criterion c'
  end.

Fixpoint bind_parameters (criteria : list Sql.criterion) : Exc unit :=
  match criteria with
  | [] => ret tt
  | c :: criteria' => bind_criterion c ;; bind_parameters criteria'
  end.

(** [(await db.scalars(db_query)).all()]: the parameters are bound, then the
    rows of the table that satisfy every criterion are returned in the order
    the engine scans them. *)
Definition scalars_all (todos : list StoredTask.t) (db_query : Sql.Select)
  : Exc (list StoredTask.t) :=
  bind_parameters (Sql.whereclause db_query) ;;
  comprehension (fun row => holds_all row (Sql.whereclause db_query)) todos.

(** [async def list_tasks(min_priority, query, cookie_min_priority, db)] *)
Definition list_tasks {L : Py.StrLower} (todos : list StoredTask.t)
    (min_priority : option Z) (query : option Py.str)
    (cookie_min_priority : option Z) : Exc (list StoredTask.t) :=
  scalars_all todos (db_query min_priority query cookie_min_priority).

End AsyncExample.

(* ===================================================================== *)
(** * The vocabulary of the properties *)
(* ===================================================================== *)

Module Spec.
Import InMemory.

Section WithLower.
Context {L : Py.StrLower}.

(** Every record of the collection is a task of the data model. *)
Definition well_typed (tasks : list TaskInternal.t) : bool :=
  forallb TaskInternal.well_typed tasks.

(** "Effective minimum priority": the explicit query parameter when there
    is one, the cookie's value otherwise. *)
Definition effective_min_priority (min_priority cookie_min_priority : option Z)
  : option Z :=
  match min_priority with
  | Some p => Some p
  | None => cookie_min_priority
  end.

(** "priority >= P" *)
Definition priority_at_least (P : Z) (t : TaskInternal.t) : Prop :=
  exists p, TaskInternal.priority t = Some p /\ P <= p.

(** "the title contains Q as a case-insensitive substring" *)
Definition title_contains_ci (Q : Py.str) (title : Py.str) : Prop :=
  Py.substring (Py.lower Q) (Py.lower title).

Definition task_contains_ci (Q : Py.str) (t : TaskInternal.t) : Prop :=
  exists title, TaskInternal.title t = Some title /\ title_contains_ci Q title.

(** "satisfies any active query": a query is active when it is present
    and not empty. *)
Definition satisfies_query (query : option Py.str) (t : TaskInternal.t) : Prop :=
  forall Q, query = Some Q -> Q <> [] -> task_contains_ci Q t.

(** The two filtering steps of [list_tasks] (lines 88-89 and 91-92), each
    on its own. *)
Definition priority_step (eff : option Z) (results : list TaskInternal.t)
  : Exc (list TaskInternal.t) :=
  match eff with
  | Some p => comprehension (priority_ge p) results
  | None => inr results
  end.

Definition query_step (query : option Py.str) (results : list TaskInternal.t)
  : Exc (list TaskInternal.t) :=
  match query with
  | Some q => if Py.truthy query then comprehension (title_matches q) results
              else inr results
  | None => inr results
  end.

(** A request to one of the four task routes; [now] is what the clock
    shows when a task is created. *)
Inductive request :=
| POST_tasks (task : TaskCreate.t) (now : datetime)
| GET_task (task_id : Z)
| GET_all (min_priority : option Z) (query : option Py.str)
    (cookie_min_priority : option Z)
| PATCH_task (task_id : Z) (task_data : TaskUpdate.t).

(** The store after a request has been served, whatever it answered. *)
Definition serve (r : request) (db : TASKS_DB) : TASKS_DB :=
  match r with
  | POST_tasks task now => snd (create_task task now db)
  | GET_task task_id => snd (get_task task_id db)
  | GET_all min_priority query cookie =>
      snd (list_tasks min_priority query cookie db)
  | PATCH_task task_id task_data => snd (update_task task_id task_data db)
  end.

Definition serve_all (rs : list request) (db : TASKS_DB) : TASKS_DB :=
  fold_left (fun db r => serve r db) rs db.

(** The identifiers 1, 2, ..., n. *)
Definition first_ids (n : nat) : list Z := map Z.of_nat (seq 1 n).

(** The stores the routes can build: the keys are 1, 2, ..., n in this
    order and every record sits under its own identifier. *)
Definition consistent (db : TASKS_DB) : Prop :=
  PyDict.keys db = first_ids (length db)
  /\ Forall (fun kv => TaskInternal.task_id (snd kv) = fst kv) db.

End WithLower.

(** The request layer of [GET /tasks] as the declarations have it:
    [min_priority] an integer of at least 1, [q] of at least three
    characters, the cookie any integer. *)
Definition passes_validation (min_priority : option Request.raw_int)
    (q : option Py.str) (cookie_min_priority : option Request.raw_int) : bool :=
  match min_priority with
  | None => true
  | Some (Request.int_text z) => 1 <=? z
  | Some Request.malformed => false
  end
  && match q with
     | None => true
     | Some s => (3 <=? length s)%nat
     end
  && match cookie_min_priority with
     | None => true
     | Some (Request.int_text _) => true
     | Some Request.malformed => false
     end.

Definition parsed (raw : option Request.raw_int) : option Z :=
  match raw with
  | Some (Request.int_text z) => Some z
  | _ => None
  end.

(** The fixture of the test-suite: three tasks, priorities 1, 2, 3. *)
Definition task (n : Z) (digit : string) : TaskInternal.t :=
  TaskInternal.mk n (Some (Py.lit ("test title " ++ digit)))
    (Some (Py.lit ("test description " ++ digit))) (Some n) 0.

Definition fixture : TASKS_DB :=
  [(1, task 1 "1"); (2, task 2 "2"); (3, task 3 "3")].

(** Rows of [todos] for the SQLite variant. *)
Definition row (n : Z) (title : Py.str) : AsyncExample.StoredTask.t :=
  AsyncExample.StoredTask.mk n title (Py.lit "description") 1 0.

End Spec.

(* ===================================================================== *)
(** * Preferences: [set_preferences] *)
(* ===================================================================== *)

Module Preferences.

(** [str(n)] for an [int]: its decimal digits, after a minus sign when it
    is negative. *)
Definition str_of_int (n : Z) : Py.str :=
  Py.lit (NilEmpty.string_of_int (Z.to_int n)).

(** [class Preference(BaseModel)] *)
Record Preference := { min_priority : Z }.

(** The cookies a [Response] sets, in the order they were set. *)
Definition Response := list (string * Py.str).

(** [response.set_cookie(key=..., value=...)] adds one Set-Cookie header. *)
Definition set_cookie (key : string) (value : Py.str) (response : Response)
  : Response :=
  response ++ [(key, value)].

(** [def set_preferences(pref: Preference, response: Response)] *)
Definition set_preferences (pref : Preference) (response : Response) : Response :=
  set_cookie "min_priority" (str_of_int (min_priority pref)) response.

(** The route [POST /preferences]: the body is checked against
    [Preference] and the handler runs on a fresh response. *)
Definition POST_preferences (body : Request.raw_int) : Exc Response :=
  match body with
  | Request.malformed => inl Py.RequestValidationError
  | Request.int_text z =>
      if Request.satisfies_int Request.Preference_min_priority z
      then inr (set_preferences {| min_priority := z |} [])
      else inl Py.RequestValidationError
  end.

(** A reader of cookie values that reads a decimal rendering back as the
    integer it renders. *)
Definition decimal (value : Py.str) : Request.raw_int :=
  match NilEmpty.int_of_string (string_of_list_ascii (map ascii_of_N value)) with
  | Some d => Request.int_text (Z.of_int d)
  | None => Request.malformed
  end.

End Preferences.

(* ===================================================================== *)
(** * More vocabulary: payloads, request sequences, SQLite matching *)
(* ===================================================================== *)

Module Patch.
Import InMemory.

(** The field constraints of [TaskUpdate]: [Field(min_length=3)] on a title
    that is a string, [Field(ge=1, le=5)] on a priority that is an integer;
    null passes both. *)
Definition validate (u : TaskUpdate.t) : bool :=
  match TaskUpdate.title u with
  | Some (Some s) => (3 <=? length s)%nat
  | _ => true
  end
  && match TaskUpdate.priority u with
     | Some (Some p) => (1 <=? p) && (p <=? 5)
     | _ => true
     end.

(** The payload sets neither the title nor the priority to null. *)
Definition keeps_types (u : TaskUpdate.t) : bool :=
  match TaskUpdate.title u with Some None => false | _ => true end
  && match TaskUpdate.priority u with Some None => false | _ => true end.

(** The payload sets no field at all (the JSON body [{}]). *)
Definition empty : TaskUpdate.t := TaskUpdate.mk None None None.

(** One field of two successive payloads: what the later one sets wins. *)
Definition later {A} (first second : option A) : option A :=
  match second with
  | Some v => Some v
  | None => first
  end.

(** The single payload that stands for [first] followed by [second]. *)
Definition followed_by (first second : TaskUpdate.t) : TaskUpdate.t :=
  TaskUpdate.mk
    (later (TaskUpdate.title first) (TaskUpdate.title second))
    (later (TaskUpdate.description first) (TaskUpdate.description second))
    (later (TaskUpdate.priority first) (TaskUpdate.priority second)).

End Patch.

Module Filter.
Import InMemory.
Section WithLower.
Context {L : Py.StrLower}.

(** The two tests of [list_tasks] on one task, for tasks on which neither
    comparison raises: at or above the effective threshold, and matching
    the query when there is a non-empty one. *)
Definition keeps (eff : option Z) (query : option Py.str) (t : TaskInternal.t)
  : bool :=
  match eff with
  | Some P => holds (priority_ge P) t
  | None => true
  end
  && match query with
     | Some q => if Py.truthy query then holds (title_matches q) t else true
     | None => true
     end.

End WithLower.
End Filter.

Module Trace.
Import InMemory.

(** The number of creations of the sequence that carry a valid task. *)
Fixpoint accepted_creates (rs : list Spec.request) : nat :=
  match rs with
  | [] => 0%nat
  | Spec.POST_tasks task _ :: rs' =>
      ((if TaskCreate.validate task then 1 else 0) + accepted_creates rs')%nat
  | _ :: rs' => accepted_creates rs'
  end.

(** No patch of the request sets a title or a priority to null. *)
Definition keeps_types (r : Spec.request) : bool :=
  match r with
  | Spec.PATCH_task _ task_data => Patch.keeps_types task_data
  | _ => true
  end.

(** The payload of a patch passed the checks of [TaskUpdate]. *)
Definition validated (r : Spec.request) : bool :=
  match r with
  | Spec.PATCH_task _ task_data => Patch.validate task_data
  | _ => true
  end.

(** A stored title, when there is one, has three characters or more, and a
    stored priority, when there is one, lies between 1 and 5. *)
Definition in_range (t : TaskInternal.t) : Prop :=
  (forall title, TaskInternal.title t = Some title -> (3 <= length title)%nat)
  /\ (forall p, TaskInternal.priority t = Some p -> 1 <= p <= 5).

End Trace.

Module Sqlite.
Import AsyncExample.

(** A character that is no LIKE wildcard. *)
Definition plain (c : Py.codepoint) : bool :=
  negb (c =? percent)%N && negb (c =? underscore)%N.

Definition wildcard_free (s : Py.str) : bool := forallb plain s.

(** No U+0000 in the string. *)
Definition nul_free (s : Py.str) : bool := forallb (fun c => negb (c =? 0)%N) s.

(** Only code points from 1 to 127. *)
Definition ascii_only (s : Py.str) : bool :=
  forallb (fun c => negb (c =? 0)%N && (c <? 128)%N) s.

(** The pattern [%other%] is within the engine's limit. *)
Definition pattern_fits (other : Py.str) : bool :=
  (utf8_bytes (percent :: other ++ [percent]) <=? SQLITE_MAX_LIKE_PATTERN_LENGTH)%N.

(** The parameters of a listing can be bound and its pattern compared: the
    effective threshold is a 64-bit integer, the lowered query has a UTF-8
    encoding and makes a pattern within the limit. *)
Definition executable {L : Py.StrLower} (eff : option Z) (query : option Py.str)
  : bool :=
  match eff with Some P => fits_int64 P | None => true end
  && match query with
     | Some q =>
         if Py.truthy query
         then encodable (Py.lower q) && pattern_fits (Py.lower q)
         else true
     | None => true
     end.

(** What the listing of the SQLite variant keeps of a row when nothing
    raises: at or above the effective threshold, and LIKE [%query.lower()%]
    when the query is not empty. *)
Definition keeps {L : Py.StrLower} (eff : option Z) (query : option Py.str)
    (row : StoredTask.t) : bool :=
  match eff with
  | Some P => P <=? StoredTask.priority row
  | None => true
  end
  && match query with
     | Some q =>
         if Py.truthy query
         then pattern_compare (until_nul (percent :: Py.lower q ++ [percent]))
                (until_nul (StoredTask.title row))
         else true
     | None => true
     end.

(** [q] occurs in [title] up to the case of ASCII letters. *)
Definition contains_ascii_ci (q title : Py.str) : Prop :=
  exists pre mid post,
    title = pre ++ mid ++ post /\ sqlite_lower mid = sqlite_lower q.

(** The in-memory record with the fields of a row. *)
Definition as_task (row : StoredTask.t) : InMemory.TaskInternal.t :=
  InMemory.TaskInternal.mk (StoredTask.task_id row)
    (Some (StoredTask.title row)) (Some (StoredTask.description row))
    (Some (StoredTask.priority row)) (StoredTask.created_at row).

(** The in-memory store that holds the rows of a table, in scan order. *)
Definition store_of (todos : list StoredTask.t) : InMemory.TASKS_DB :=
  map (fun row => (StoredTask.task_id row, as_task row)) todos.

End Sqlite.

(* ===================================================================== *)
(** * Strings *)
(* ===================================================================== *)

Lemma startswith_spec (p s : Py.str) :
  Py.startswith p s = true <-> exists post, s = p ++ post.
Proof.
  revert s; induction p as [|a p IH]; intros s; simpl.
  - split; [intros _; now exists s | reflexivity].
  - destruct s as [|b s].
    + split; [discriminate | intros [post H]; discriminate].
    + rewrite andb_true_iff, N.eqb_eq, IH. split.
      * intros [-> [post ->]]. now exists post.
      * intros [post H]. injection H as -> ->. split; [reflexivity | now exists post].
Qed.

Lemma contains_spec (needle hay : Py.str) :
  Py.contains needle hay = true <-> Py.substring needle hay.
Proof.
  unfold Py.substring. split.
  - induction hay as [|c hay IH]; simpl; rewrite orb_true_iff.
    + intros [H | H]; [| discriminate].
      apply startswith_spec in H as [post ->]. now exists [], post.
    + intros [H | H].
      * apply startswith_spec in H as [post ->]. now exists [], post.
      * destruct (IH H) as (pre & post & ->). now exists (c :: pre), post.
  - intros (pre & post & ->).
    induction pre as [|c pre IH].
    + assert (H : Py.startswith needle (needle ++ post) = true)
        by (apply startswith_spec; now exists post).
      simpl. destruct (needle ++ post); simpl in *; rewrite H; reflexivity.
    + simpl. rewrite IH. apply orb_true_r.
Qed.

(* ===================================================================== *)
(** * List comprehensions *)
(* ===================================================================== *)

Section Comprehension.
Context {A : Type} (p : A -> Exc bool).

Lemma comprehension_inr xs out :
  comprehension p xs = inr out ->
  out = filter (holds p) xs /\ forall x, In x xs -> p x = inr (holds p x).
Proof.
  revert out; induction xs as [|x xs IH]; simpl; intros out H.
  - injection H as <-. split; [reflexivity | contradiction].
  - unfold holds at 1. destruct (p x) as [e|b] eqn:Hx; [discriminate|].
    destruct (comprehension p xs) as [e|rest]; [discriminate|].
    injection H as <-. destruct (IH rest eq_refl) as [-> Hall]. split.
    + reflexivity.
    + intros y [<- | Hy]; [unfold holds; now rewrite Hx | now apply Hall].
Qed.

Lemma comprehension_total xs :
  (forall x, In x xs -> exists b, p x = inr b) ->
  comprehension p xs = inr (filter (holds p) xs).
Proof.
  induction xs as [|x xs IH]; simpl; intros H; [reflexivity|].
  destruct (H x (or_introl eq_refl)) as [b Hb].
  unfold holds at 1. rewrite Hb, IH; [reflexivity|].
  intros y Hy. apply H. now right.
Qed.

Lemma comprehension_In xs out :
  comprehension p xs = inr out ->
  forall x, In x out <-> In x xs /\ p x = inr true.
Proof.
  intros H x. destruct (comprehension_inr _ H) as [-> Hall].
  rewrite filter_In. split.
  - intros [Hin Hh]. split; [assumption|]. now rewrite (Hall x Hin), Hh.
  - intros [Hin Hp]. split; [assumption|]. unfold holds. now rewrite Hp.
Qed.

Lemma comprehension_fixed xs :
  (forall x, In x xs -> p x = inr true) -> comprehension p xs = inr xs.
Proof.
  induction xs as [|x xs IH]; simpl; intros H; [reflexivity|].
  rewrite (H x (or_introl eq_refl)), IH; [reflexivity|].
  intros y Hy. apply H. now right.
Qed.

Lemma comprehension_idempotent xs out :
  comprehension p xs = inr out -> comprehension p out = inr out.
Proof.
  intros H. apply comprehension_fixed.
  intros x Hx. now apply (comprehension_In _ H).
Qed.

End Comprehension.

Lemma filter_subsequence {A} (f : A -> bool) (l : list A) :
  subsequence (filter f l) l.
Proof.
  induction l as [|x l IH]; simpl; [constructor|].
  destruct (f x); now constructor.
Qed.

Lemma subsequence_refl {A} (l : list A) : subsequence l l.
Proof. induction l; now constructor. Qed.

Lemma subsequence_trans {A} (l1 l2 l3 : list A) :
  subsequence l1 l2 -> subsequence l2 l3 -> subsequence l1 l3.
Proof.
  intros H12 H23; revert l1 H12.
  induction H23 as [|x l2 l3 _ IH|x l2 l3 _ IH]; intros l1 H12.
  - assumption.
  - inversion H12; subst; constructor; now apply IH.
  - constructor. now apply IH.
Qed.

Lemma subsequence_In {A} (sub l : list A) :
  subsequence sub l -> forall x, In x sub -> In x l.
Proof.
  induction 1; simpl; intros y Hy; [assumption | | right; auto].
  destruct Hy as [<- | Hy]; [now left | right; auto].
Qed.

Lemma subsequence_map {A B} (f : A -> B) (sub l : list A) :
  subsequence sub l -> subsequence (map f sub) (map f l).
Proof. induction 1; simpl; now constructor. Qed.

(* ===================================================================== *)
(** * Listing: the in-memory variant *)
(* ===================================================================== *)

Section ListingFacts.
Import InMemory.
Context {L : Py.StrLower}.

Lemma list_tasks_run db min_priority query cookie :
  list_tasks min_priority query cookie db
  = (filter_results (PyDict.values db) min_priority query cookie, db).
Proof. reflexivity. Qed.

Lemma priority_ge_true P t :
  priority_ge P t = inr true <-> Spec.priority_at_least P t.
Proof.
  unfold priority_ge, Spec.priority_at_least.
  destruct (TaskInternal.priority t) as [p|]; split.
  - intros H. injection H as H. apply Z.leb_le in H. eauto.
  - intros (p' & Hp & Hle). injection Hp as <-.
    f_equal. now apply Z.leb_le.
  - discriminate.
  - intros (p' & Hp & _). discriminate.
Qed.

Lemma title_matches_true Q t :
  title_matches Q t = inr true <-> Spec.task_contains_ci Q t.
Proof.
  unfold title_matches, Spec.task_contains_ci, Spec.title_contains_ci.
  destruct (TaskInternal.title t) as [title|]; split.
  - intros H. injection H as H. apply contains_spec in H. eauto.
  - intros (title' & Ht & Hsub). injection Ht as <-.
    f_equal. now apply contains_spec.
  - discriminate.
  - intros (title' & Ht & _). discriminate.
Qed.

Lemma filter_results_steps T min_priority query cookie :
  filter_results T min_priority query cookie
  = match Spec.priority_step (Spec.effective_min_priority min_priority cookie) T with
    | inl e => inl e
    | inr r1 => Spec.query_step query r1
    end.
Proof.
  unfold filter_results, Spec.priority_step, Spec.query_step; simpl.
  destruct min_priority, cookie; simpl;
    repeat match goal with
           | |- context [match ?c with inl _ => _ | inr _ => _ end] => destruct c; simpl
           | |- context [match ?q with Some _ => _ | None => _ end] => destruct q; simpl
           | |- context [if ?b then _ else _] => destruct b; simpl
           end; reflexivity.
Qed.

Lemma priority_step_inr eff T r1 :
  Spec.priority_step eff T = inr r1 ->
  subsequence r1 T /\
  forall t, In t r1 <->
            In t T /\ forall P, eff = Some P -> Spec.priority_at_least P t.
Proof.
  unfold Spec.priority_step. destruct eff as [p|]; intros H.
  - split.
    + destruct (comprehension_inr _ _ H) as [-> _]. apply filter_subsequence.
    + intros t. rewrite (comprehension_In _ _ H), priority_ge_true. split.
      * intros [Hin Hp]. split; [assumption|]. now intros P [= <-].
      * intros [Hin Hp]. auto.
  - injection H as <-. split; [apply subsequence_refl|].
    intros t. split; [intros Hin; split; [assumption | discriminate] | tauto].
Qed.

Lemma query_step_inr query T out :
  Spec.query_step query T = inr out ->
  subsequence out T /\
  forall t, In t out <-> In t T /\ Spec.satisfies_query query t.
Proof.
  unfold Spec.query_step, Spec.satisfies_query.
  destruct query as [[|c q]|]; simpl; intros H.
  - injection H as <-. split; [apply subsequence_refl|].
    intros t. split; [intros Hin; split; [assumption|] | tauto].
    intros Q [= <-] Hne. now contradiction Hne.
  - split.
    + destruct (comprehension_inr _ _ H) as [-> _]. apply filter_subsequence.
    + intros t. rewrite (comprehension_In _ _ H), title_matches_true. split.
      * intros [Hin Hq]. split; [assumption|]. now intros Q [= <-] _.
      * intros [Hin Hq]. split; [assumption|]. now apply Hq.
  - injection H as <-. split; [apply subsequence_refl|].
    intros t. split; [intros Hin; split; [assumption | discriminate] | tauto].
Qed.

(** What a returned listing holds: a subsequence of the input, made of the
    records that pass both tests. *)
Lemma filter_results_inr T min_priority query cookie out :
  filter_results T min_priority query cookie = inr out ->
  subsequence out T /\
  forall t, In t out <->
            In t T
            /\ (forall P, Spec.effective_min_priority min_priority cookie = Some P ->
                          Spec.priority_at_least P t)
            /\ Spec.satisfies_query query t.
Proof.
  rewrite filter_results_steps.
  destruct (Spec.priority_step _ T) as [e|r1] eqn:H1; [discriminate|].
  intros H2.
  destruct (priority_step_inr _ _ H1) as [S1 M1].
  destruct (query_step_inr _ _ H2) as [S2 M2].
  split; [now apply subsequence_trans with r1|].
  intros t. rewrite M2, M1. tauto.
Qed.

Lemma well_typed_In T t :
  Spec.well_typed T = true -> In t T ->
  exists title p, TaskInternal.title t = Some title /\ TaskInternal.priority t = Some p.
Proof.
  unfold Spec.well_typed. rewrite forallb_forall. intros H Hin.
  specialize (H t Hin). unfold TaskInternal.well_typed in H.
  destruct (TaskInternal.title t), (TaskInternal.priority t); try discriminate.
  eauto.
Qed.

(** On a collection of well-typed tasks no comparison raises. *)
Lemma filter_results_total T min_priority query cookie :
  Spec.well_typed T = true ->
  exists out, filter_results T min_priority query cookie = inr out.
Proof.
  intros WT. rewrite filter_results_steps.
  assert (H1 : exists r1, Spec.priority_step
                 (Spec.effective_min_priority min_priority cookie) T = inr r1).
  { unfold Spec.priority_step.
    destruct (Spec.effective_min_priority min_priority cookie) as [p|]; [|eauto].
    eexists. apply comprehension_total. intros t Hin.
    destruct (well_typed_In _ _ WT Hin) as (title & pr & _ & Hp).
    unfold priority_ge. rewrite Hp. eauto. }
  destruct H1 as [r1 H1]. rewrite H1.
  destruct (priority_step_inr _ _ H1) as [S1 _].
  unfold Spec.query_step. destruct query as [q|]; [|eauto].
  destruct (Py.truthy (Some q)); [|eauto].
  eexists. apply comprehension_total. intros t Hin.
  destruct (well_typed_In _ _ WT (subsequence_In S1 _ Hin)) as (title & pr & Ht & _).
  unfold title_matches. rewrite Ht. eauto.
Qed.

Lemma filter_results_fixed T min_priority query cookie out :
  filter_results T min_priority query cookie = inr out ->
  filter_results out min_priority query cookie = inr out.
Proof.
  rewrite !filter_results_steps.
  destruct (Spec.priority_step _ T) as [e|r1] eqn:H1; [discriminate|].
  intros H2.
  assert (Hsub : forall t, In t out -> In t r1)
    by (apply subsequence_In; now apply (query_step_inr _ _ H2)).
  assert (H1' : Spec.priority_step
                  (Spec.effective_min_priority min_priority cookie) out = inr out).
  { revert H1. unfold Spec.priority_step.
    destruct (Spec.effective_min_priority min_priority cookie) as [p|]; [|reflexivity].
    intros H1. apply comprehension_fixed. intros t Hin.
    now apply (comprehension_In _ _ H1), Hsub. }
  rewrite H1'. revert H2. unfold Spec.query_step.
  destruct query as [q|]; [|now intros [= <-]].
  destruct (Py.truthy (Some q)); [|now intros [= <-]].
  apply comprehension_idempotent.
Qed.

(** C1.  Listing with [min_priority = P] over a collection of tasks returns
    exactly the tasks of the collection whose priority is at least [P] and
    whose title satisfies the query when one is active: nothing below the
    floor comes back, nothing that passes both tests is left out, and the
    two tests are joined by AND. *)
Theorem list_tasks_min_priority_exact
    (db : TASKS_DB) (P : Z) (query : option Py.str) (cookie : option Z) :
  Spec.well_typed (PyDict.values db) = true ->
  exists out,
    list_tasks (Some P) query cookie db = (inr out, db)
    /\ (forall t, In t out -> Spec.priority_at_least P t)
    /\ (forall t, In t (PyDict.values db) -> Spec.priority_at_least P t ->
                  Spec.satisfies_query query t -> In t out)
    /\ (forall t, In t out <->
                  In t (PyDict.values db)
                  /\ Spec.priority_at_least P t /\ Spec.satisfies_query query t).
Proof.
  intros WT. rewrite list_tasks_run.
  destruct (filter_results_total _ (Some P) query cookie WT) as [out Hout].
  exists out. rewrite Hout.
  destruct (filter_results_inr _ _ _ _ Hout) as [_ M]. simpl in M.
  assert (M' : forall t, In t out <->
                 In t (PyDict.values db)
                 /\ Spec.priority_at_least P t /\ Spec.satisfies_query query t).
  { intros t. rewrite M. split.
    - intros (Hin & Hp & Hq). auto.
    - intros (Hin & Hp & Hq). split; [assumption|]. split; [|assumption].
      now intros P' [= <-]. }
  split; [reflexivity|]. split; [|split]; [| |exact M'].
  - intros t Hin. now apply M'.
  - intros t Hin Hp Hq. apply M'. auto.
Qed.

(** C6.  Listing keeps the order of the store: what it returns is a
    subsequence of the store's values, which the dict holds in insertion
    order; nothing is sorted. *)
Theorem list_tasks_preserves_order
    (db : TASKS_DB) (min_priority : option Z) (query : option Py.str)
    (cookie : option Z) :
  Spec.well_typed (PyDict.values db) = true ->
  exists out,
    list_tasks min_priority query cookie db = (inr out, db)
    /\ subsequence out (PyDict.values db).
Proof.
  intros WT. rewrite list_tasks_run.
  destruct (filter_results_total _ min_priority query cookie WT) as [out Hout].
  exists out. rewrite Hout. split; [reflexivity|].
  now apply (filter_results_inr _ _ _ _ Hout).
Qed.

(** C7.  Filtering is idempotent: filtering the outcome of a filtering
    again, with the same parameters, is the filtering itself (an exception
    of the first pass included). *)
Theorem filter_results_idempotent
    (T : list TaskInternal.t) (min_priority : option Z) (query : option Py.str)
    (cookie : option Z) :
  (out <- filter_results T min_priority query cookie ;;
   filter_results out min_priority query cookie)
  = filter_results T min_priority query cookie.
Proof.
  destruct (filter_results T min_priority query cookie) as [e|out] eqn:H; simpl.
  - reflexivity.
  - now apply filter_results_fixed with T.
Qed.

(** C10.  In the in-memory variant an empty query is no query: [if query:]
    is false for [""] as it is for [None], so no title test is applied. *)
Theorem list_tasks_empty_query
    (db : TASKS_DB) (min_priority cookie : option Z) :
  list_tasks min_priority (Some []) cookie db
  = list_tasks min_priority None cookie db.
Proof.
  rewrite !list_tasks_run, !filter_results_steps. reflexivity.
Qed.

End ListingFacts.

(* ===================================================================== *)
(** * Precedence between the query parameter and the cookie *)
(* ===================================================================== *)

Section Precedence.
Import InMemory.
Context {L : Py.StrLower}.

Lemma filter_results_effective T min_priority query cookie :
  filter_results T min_priority query cookie
  = filter_results T (Spec.effective_min_priority min_priority cookie) query None.
Proof.
  rewrite !filter_results_steps.
  now destruct min_priority, cookie.
Qed.

(** In [main.py] a threshold in force, explicit or from the cookie, makes
    the construction of the statement raise; without one the statement has
    the title criterion alone. *)
Lemma main_db_query_threshold min_priority query cookie :
  (Spec.effective_min_priority min_priority cookie <> None ->
   Main.db_query min_priority query cookie = inl Py.NotImplementedError)
  /\ Main.db_query min_priority query cookie
     = Main.db_query (Spec.effective_min_priority min_priority cookie) query None.
Proof.
  split; [|now destruct min_priority, cookie].
  destruct min_priority as [p|], cookie as [c|]; intros H;
    try reflexivity; now contradiction H.
Qed.

(** C2.  The threshold of a listing is the explicit [min_priority] when
    there is one and the cookie's value otherwise.  With the cookie alone the
    listing holds exactly the stored tasks whose priority is at least the
    cookie's value (and that satisfy the query); with both, exactly those
    whose priority is at least the explicit value, and the listing is the
    one the explicit value gives without any cookie: the cookie is ignored,
    not merged.  In general the listing is the one of the effective
    threshold. *)
Theorem min_priority_precedence
    (db : TASKS_DB) (query : option Py.str) (explicit from_cookie : Z) :
  Spec.well_typed (PyDict.values db) = true ->
  (exists out,
     list_tasks None query (Some from_cookie) db = (inr out, db)
     /\ forall t, In t out <->
                  In t (PyDict.values db)
                  /\ Spec.priority_at_least from_cookie t
                  /\ Spec.satisfies_query query t)
  /\ (exists out,
        list_tasks (Some explicit) query (Some from_cookie) db = (inr out, db)
        /\ list_tasks (Some explicit) query None db = (inr out, db)
        /\ forall t, In t out <->
                     In t (PyDict.values db)
                     /\ Spec.priority_at_least explicit t
                     /\ Spec.satisfies_query query t)
  /\ (forall min_priority cookie,
        exists out,
          list_tasks min_priority query cookie db = (inr out, db)
          /\ list_tasks (Spec.effective_min_priority min_priority cookie) query
               None db = (inr out, db)
          /\ forall t, In t out <->
                       In t (PyDict.values db)
                       /\ (forall P,
                             Spec.effective_min_priority min_priority cookie = Some P ->
                             Spec.priority_at_least P t)
                       /\ Spec.satisfies_query query t).
Proof.
  intros WT.
  assert (G : forall min_priority cookie,
             exists out,
               list_tasks min_priority query cookie db = (inr out, db)
               /\ list_tasks (Spec.effective_min_priority min_priority cookie) query
                    None db = (inr out, db)
               /\ forall t, In t out <->
                            In t (PyDict.values db)
                            /\ (forall P,
                                  Spec.effective_min_priority min_priority cookie
                                  = Some P ->
                                  Spec.priority_at_least P t)
                            /\ Spec.satisfies_query query t).
  { intros min_priority cookie. rewrite !list_tasks_run.
    rewrite <- filter_results_effective.
    destruct (filter_results_total _ min_priority query cookie WT) as [out Hout].
    exists out. rewrite Hout. split; [reflexivity|]. split; [reflexivity|].
    now apply (filter_results_inr _ _ _ _ Hout). }
  split; [|split; [|exact G]].
  - destruct (G None (Some from_cookie)) as (out & H1 & _ & M).
    exists out. split; [assumption|]. intros t. rewrite M. simpl. split.
    + intros (Hin & Hp & Hq). auto.
    + intros (Hin & Hp & Hq). split; [assumption|]. split; [|assumption].
      now intros P [= <-].
  - destruct (G (Some explicit) (Some from_cookie)) as (out & H1 & H2 & M).
    exists out. split; [assumption|]. split; [exact H2|].
    intros t. rewrite M. simpl. split.
    + intros (Hin & Hp & Hq). auto.
    + intros (Hin & Hp & Hq). split; [assumption|]. split; [|assumption].
      now intros P [= <-].
Qed.

End Precedence.

(** The example of the specification: priorities 1, 2, 3, an explicit 2
    and a cookie of 3 give the tasks of priority 2 and 3. *)
Example precedence_on_fixture :
  fst (InMemory.list_tasks (L := Py.lower_latin1) (Some 2) None (Some 3) Spec.fixture)
  = inr [Spec.task 2 "2"; Spec.task 3 "3"].
Proof. reflexivity. Qed.

(* ===================================================================== *)
(** * The title query *)
(* ===================================================================== *)

Section TitleQuery.
Import InMemory.
Context {L : Py.StrLower}.

(** In the in-memory variant a non-empty query keeps exactly the tasks
    whose title contains it, case folded on both sides. *)
Lemma list_tasks_query_exact (db : TASKS_DB) (Q : Py.str) :
  Spec.well_typed (PyDict.values db) = true -> Q <> [] ->
  exists out,
    list_tasks None (Some Q) None db = (inr out, db)
    /\ forall t, In t out <-> In t (PyDict.values db) /\ Spec.task_contains_ci Q t.
Proof.
  intros WT HQ. rewrite list_tasks_run.
  destruct (filter_results_total _ None (Some Q) None WT) as [out Hout].
  exists out. rewrite Hout. split; [reflexivity|].
  destruct (filter_results_inr _ _ _ _ Hout) as [_ M].
  intros t. rewrite M. unfold Spec.satisfies_query. split.
  - intros (Hin & _ & Hq). split; [assumption|]. now apply Hq.
  - intros (Hin & Hq). split; [assumption|]. split; [discriminate|].
    now intros Q' [= <-] _.
Qed.

End TitleQuery.

(** C3.  The SQLite variant does not keep exactly the tasks whose title
    contains the query.  [contains] is rendered as LIKE, where [_] and [%]
    of the query are wildcards: the query [a_c] returns the task titled
    [abc].  And [func.lower] is applied to the comparison instead of the
    title, so only the ASCII folding of LIKE is left: the query [äbc] does
    not return the task titled [ÄBC], whose lowered title contains it.  The
    in-memory variant answers both as the claim says. *)
Theorem async_list_tasks_not_substring :
  let L := Py.lower_latin1 in
  let a_c := Py.lit "a_c" in
  let abc := Py.lit "abc" in
  let upper := [196; 66; 67]%N in
  let lowered := [228; 98; 99]%N in
  (AsyncExample.list_tasks [Spec.row 1 abc] None (Some a_c) None
   = inr [Spec.row 1 abc]
   /\ ~ Spec.title_contains_ci a_c abc)
  /\ (AsyncExample.list_tasks [Spec.row 1 upper] None (Some lowered) None = inr []
      /\ Spec.title_contains_ci lowered upper)
  /\ (fst (InMemory.list_tasks None (Some a_c) None
             [(1, InMemory.TaskInternal.mk 1 (Some abc) None (Some 1) 0)]) = inr []
      /\ fst (InMemory.list_tasks None (Some lowered) None
                [(1, InMemory.TaskInternal.mk 1 (Some upper) None (Some 1) 0)])
         = inr [InMemory.TaskInternal.mk 1 (Some upper) None (Some 1) 0]).
Proof.
  cbv zeta. split; [split|split; [split|split]]; try reflexivity.
  - unfold Spec.title_contains_ci. intros H. apply contains_spec in H.
    vm_compute in H. discriminate.
  - unfold Spec.title_contains_ci. apply contains_spec. reflexivity.
Qed.

(* ===================================================================== *)
(** * The request layer of [GET /tasks] *)
(* ===================================================================== *)

Section RequestLayer.
Import InMemory.
Context {L : Py.StrLower}.

(** C8, as the declarations have it.  [GET /tasks] accepts [min_priority]
    when it is absent or an integer of at least 1 (there is no upper
    bound), [q] when it is absent or at least three characters long, and
    the cookie when it is absent or any integer (there is no range).  A
    request that passes reaches [list_tasks] with the parsed values; any
    other is answered 422, the handler is not called and the store is not
    touched. *)
Theorem GET_tasks_validation
    (db : TASKS_DB) (min_priority : option Request.raw_int)
    (q : option Py.str) (cookie : option Request.raw_int) :
  GET_tasks min_priority q cookie db
  = (if Spec.passes_validation min_priority q cookie
     then list_tasks (Spec.parsed min_priority) q (Spec.parsed cookie) db
     else (inl Py.RequestValidationError, db))
  /\ Request.status_of (A := list TaskInternal.t) (inl Py.RequestValidationError)
     = 422.
Proof.
  split; [|reflexivity].
  unfold GET_tasks, Spec.passes_validation, Request.optional_int,
    Request.optional_str, Request.satisfies_int, Request.satisfies_str.
  destruct min_priority as [[z|]|], q as [s|], cookie as [[c|]|];
    cbn -[Nat.leb Z.leb list_tasks];
    repeat match goal with
           | |- context [Z.leb ?a ?b] => destruct (Z.leb a b)
           | |- context [Nat.leb ?a ?b] => destruct (Nat.leb a b)
           end;
    reflexivity.
Qed.

End RequestLayer.

(** C8 fails as stated: 6 and 9 are outside the range 1-5 that
    [Preference] enforces, and 0 is not positive, yet [min_priority=6], a
    cookie of 9 and a cookie of 0 are accepted and the listing runs with
    them. *)
Lemma GET_tasks_accepts_out_of_range :
  let L := Py.lower_latin1 in
  Request.satisfies_int Request.Preference_min_priority 6 = false
  /\ Request.status_of
       (fst (InMemory.GET_tasks (Some (Request.int_text 6)) None None Spec.fixture))
     = 200
  /\ InMemory.GET_tasks (Some (Request.int_text 6)) None None Spec.fixture
     = InMemory.list_tasks (Some 6) None None Spec.fixture
  /\ InMemory.GET_tasks None None (Some (Request.int_text 9)) Spec.fixture
     = (inr [], Spec.fixture)
  /\ fst (InMemory.GET_tasks None None (Some (Request.int_text 0)) Spec.fixture)
     = inr [Spec.task 1 "1"; Spec.task 2 "2"; Spec.task 3 "3"].
Proof. cbv zeta. split; [|split; [|split; [|split]]]; reflexivity. Qed.

(* ===================================================================== *)
(** * Dictionaries *)
(* ===================================================================== *)

Section DictFacts.
Context {V : Type}.
Implicit Types (d : PyDict.t V) (k : Z) (v : V).

Lemma get_None_iff k d : PyDict.get k d = None <-> ~ In k (PyDict.keys d).
Proof.
  induction d as [|[k' v'] d IH]; simpl; [tauto|].
  destruct (Z.eqb_spec k k') as [->|Hne].
  - split; [discriminate | intros H; exfalso; apply H; now left].
  - rewrite IH. split; [intros H [E|Hin]; [congruence | tauto] | tauto].
Qed.

Lemma get_Some_In k v d : PyDict.get k d = Some v -> In (k, v) d.
Proof.
  induction d as [|[k' v'] d IH]; simpl; [discriminate|].
  destruct (Z.eqb_spec k k') as [->|Hne].
  - intros [= ->]. now left.
  - intros H. right. now apply IH.
Qed.

Lemma In_keys_get k d : In k (PyDict.keys d) -> exists v, PyDict.get k d = Some v.
Proof.
  intros Hin. destruct (PyDict.get k d) as [v|] eqn:E; [eauto|].
  now apply get_None_iff in E.
Qed.

Lemma get_setitem_eq k v d : PyDict.get k (PyDict.setitem k v d) = Some v.
Proof.
  induction d as [|[k' v'] d IH]; simpl.
  - now rewrite Z.eqb_refl.
  - destruct (Z.eqb_spec k k') as [->|Hne]; simpl.
    + now rewrite Z.eqb_refl.
    + destruct (Z.eqb_spec k k'); [contradiction | assumption].
Qed.

Lemma get_setitem_ne k k' v d :
  k' <> k -> PyDict.get k' (PyDict.setitem k v d) = PyDict.get k' d.
Proof.
  intros Hne. induction d as [|[k0 v0] d IH]; simpl.
  - destruct (Z.eqb_spec k' k); [contradiction | reflexivity].
  - destruct (Z.eqb_spec k k0) as [->|Hk]; simpl.
    + destruct (Z.eqb_spec k' k0); [contradiction | reflexivity].
    + now rewrite IH.
Qed.

(** Assigning to a key of the dict changes neither the keys nor their
    order. *)
Lemma keys_setitem_present k v d :
  In k (PyDict.keys d) -> PyDict.keys (PyDict.setitem k v d) = PyDict.keys d.
Proof.
  induction d as [|[k' v'] d IH]; simpl; [contradiction|].
  destruct (Z.eqb_spec k k') as [->|Hne]; simpl; [reflexivity|].
  intros [E|Hin]; [congruence|]. f_equal. now apply IH.
Qed.

(** Assigning to a new key appends it. *)
Lemma setitem_fresh k v d :
  ~ In k (PyDict.keys d) -> PyDict.setitem k v d = d ++ [(k, v)].
Proof.
  induction d as [|[k' v'] d IH]; simpl; [reflexivity|].
  intros H. destruct (Z.eqb_spec k k') as [->|Hne].
  - exfalso. apply H. now left.
  - f_equal. apply IH. tauto.
Qed.

Lemma setitem_Forall (P : Z * V -> Prop) k v d :
  Forall P d -> P (k, v) -> Forall P (PyDict.setitem k v d).
Proof.
  intros HF Hnew. induction d as [|[k' v'] d IH]; simpl.
  - now constructor.
  - inversion HF as [|? ? Hhd Htl]; subst.
    destruct (Z.eqb_spec k k') as [->|Hne]; constructor; try assumption.
    now apply IH.
Qed.

End DictFacts.

Lemma max_default_fold (xs : list Z) (x : Z) :
  x <= fold_left Z.max xs x /\ forall y, In y xs -> y <= fold_left Z.max xs x.
Proof.
  revert x; induction xs as [|a xs IH]; intros x; simpl.
  - split; [lia | contradiction].
  - destruct (IH (Z.max x a)) as [H1 H2]. split; [lia|].
    intros y [<-|Hy]; [lia | now apply H2].
Qed.

Lemma max_default_upper (xs : list Z) (d x : Z) :
  In x xs -> x <= Py.max_default xs d.
Proof.
  destruct xs as [|a xs]; simpl; [contradiction|].
  destruct (max_default_fold xs a) as [H1 H2].
  intros [<-|Hx]; [assumption | now apply H2].
Qed.

Lemma fold_max_app (xs : list Z) (x y : Z) :
  fold_left Z.max (xs ++ [y]) x = Z.max (fold_left Z.max xs x) y.
Proof. now rewrite fold_left_app. Qed.

Lemma max_default_first_ids (n : nat) :
  Py.max_default (Spec.first_ids n) 0 = Z.of_nat n.
Proof.
  unfold Spec.first_ids. induction n as [|n IH]; [reflexivity|].
  rewrite seq_S, map_app. simpl (map _ [_]).
  destruct n as [|n]; [reflexivity|].
  simpl seq in *. simpl map in *. simpl Py.max_default in *.
  rewrite fold_max_app, IH. lia.
Qed.

Lemma first_ids_S (n : nat) :
  Spec.first_ids (S n) = Spec.first_ids n ++ [Z.of_nat n + 1].
Proof.
  unfold Spec.first_ids. rewrite seq_S, map_app. simpl. do 2 f_equal. lia.
Qed.

(* ===================================================================== *)
(** * Lookup, patch and creation in the in-memory store *)
(* ===================================================================== *)

Section StoreFacts.
Import InMemory.

Lemma assign_task_id x a : TaskInternal.task_id (assign x a) = TaskInternal.task_id x.
Proof. now destruct a. Qed.

Lemma assign_created_at x a :
  TaskInternal.created_at (assign x a) = TaskInternal.created_at x.
Proof. now destruct a. Qed.

(** Whatever the update holds, a copy keeps the identifier and the
    creation time. *)
Lemma model_copy_frame x update :
  TaskInternal.task_id (model_copy x update) = TaskInternal.task_id x
  /\ TaskInternal.created_at (model_copy x update) = TaskInternal.created_at x.
Proof.
  unfold model_copy. revert x. induction update as [|a update IH]; intros x; simpl.
  - now split.
  - destruct (IH (assign x a)) as [-> ->].
    now rewrite assign_task_id, assign_created_at.
Qed.

Lemma update_task_found task_id task_data db stored :
  PyDict.get task_id db = Some stored ->
  update_task task_id task_data db
  = (inr (model_copy stored (model_dump_exclude_unset task_data)),
     PyDict.setitem task_id
       (model_copy stored (model_dump_exclude_unset task_data)) db).
Proof. intros H. unfold update_task; simpl. now rewrite H. Qed.

Lemma update_task_missing task_id task_data db :
  PyDict.get task_id db = None ->
  update_task task_id task_data db
  = (inl (Py.HTTPException 404 "Task not found"), db).
Proof. intros H. unfold update_task; simpl. now rewrite H. Qed.

(** C4.  Patching an existing task writes, on a copy of the stored record,
    exactly the fields the payload sets (a field set to null included);
    every other field keeps its value, and the identifier and the creation
    time are never changed.  The copy replaces the record under the same
    key and no other record of the store is touched. *)
Theorem update_task_merge
    (db : TASKS_DB) (task_id : Z) (stored : TaskInternal.t)
    (task_data : TaskUpdate.t) :
  PyDict.get task_id db = Some stored ->
  exists updated,
    update_task task_id task_data db
    = (inr updated, PyDict.setitem task_id updated db)
    /\ TaskInternal.title updated
       = match TaskUpdate.title task_data with
         | Some v => v
         | None => TaskInternal.title stored
         end
    /\ TaskInternal.description updated
       = match TaskUpdate.description task_data with
         | Some v => v
         | None => TaskInternal.description stored
         end
    /\ TaskInternal.priority updated
       = match TaskUpdate.priority task_data with
         | Some v => v
         | None => TaskInternal.priority stored
         end
    /\ TaskInternal.task_id updated = TaskInternal.task_id stored
    /\ TaskInternal.created_at updated = TaskInternal.created_at stored
    /\ PyDict.get task_id (PyDict.setitem task_id updated db) = Some updated
    /\ (forall k, k <> task_id ->
                  PyDict.get k (PyDict.setitem task_id updated db) = PyDict.get k db)
    /\ PyDict.keys (PyDict.setitem task_id updated db) = PyDict.keys db.
Proof.
  intros Hget. eexists. split; [apply update_task_found; exact Hget|].
  destruct (model_copy_frame stored (model_dump_exclude_unset task_data)) as [Hid Hat].
  split; [|split; [|split; [|split; [|split; [|split; [|split]]]]]].
  - now destruct task_data as [[t|] [d|] [p|]].
  - now destruct task_data as [[t|] [d|] [p|]].
  - now destruct task_data as [[t|] [d|] [p|]].
  - exact Hid.
  - exact Hat.
  - apply get_setitem_eq.
  - intros k Hk. now apply get_setitem_ne.
  - apply keys_setitem_present. apply get_Some_In in Hget.
    unfold PyDict.keys. now apply (in_map fst) in Hget.
Qed.

(** C9.  For an identifier the store does not hold, [get_task] and
    [update_task] both raise the 404 "Task not found" and leave the store as
    it was; for an identifier it holds, [get_task] returns the task stored
    under it. *)
Theorem task_not_found (db : TASKS_DB) (task_id : Z) :
  (~ In task_id (PyDict.keys db) ->
   get_task task_id db = (inl (Py.HTTPException 404 "Task not found"), db)
   /\ (forall task_data,
         update_task task_id task_data db
         = (inl (Py.HTTPException 404 "Task not found"), db))
   /\ Request.status_of (fst (get_task task_id db)) = Py.HTTP_404_NOT_FOUND)
  /\ (In task_id (PyDict.keys db) ->
      exists t, In (task_id, t) db /\ PyDict.get task_id db = Some t
                /\ get_task task_id db = (inr t, db)).
Proof.
  split.
  - intros Hnot. apply get_None_iff in Hnot.
    assert (Hget : get_task task_id db
                   = (inl (Py.HTTPException 404 "Task not found"), db))
      by (unfold get_task; simpl; now rewrite Hnot).
    split; [exact Hget|]. split.
    + intros task_data. now apply update_task_missing.
    + now rewrite Hget.
  - intros Hin. destruct (In_keys_get _ _ Hin) as [t Ht].
    exists t. split; [now apply get_Some_In|]. split; [assumption|].
    unfold get_task; simpl. now rewrite Ht.
Qed.

Lemma create_task_valid task now db :
  TaskCreate.validate task = true ->
  let next := Py.max_default (PyDict.keys db) 0 + 1 in
  let new := TaskInternal.mk next (Some (TaskCreate.title task))
               (TaskCreate.description task) (Some (TaskCreate.priority task)) now in
  create_task task now db = (inr new, PyDict.setitem next new db).
Proof.
  intros Hv. unfold create_task, TaskInternal_new; simpl. now rewrite Hv.
Qed.

Lemma create_task_invalid task now db :
  TaskCreate.validate task = false ->
  create_task task now db = (inl Py.ValidationError, db).
Proof.
  intros Hv. unfold create_task, TaskInternal_new; simpl. now rewrite Hv.
Qed.

Lemma next_id_fresh (db : TASKS_DB) :
  ~ In (Py.max_default (PyDict.keys db) 0 + 1) (PyDict.keys db).
Proof.
  intros Hin. apply (max_default_upper _ 0) in Hin. lia.
Qed.

Lemma create_task_consistent task now db :
  Spec.consistent db -> Spec.consistent (snd (create_task task now db)).
Proof.
  intros [Hk Hf]. destruct (TaskCreate.validate task) eqn:Hv.
  - rewrite create_task_valid by assumption. cbv zeta. simpl snd.
    rewrite setitem_fresh by apply next_id_fresh.
    rewrite Hk, max_default_first_ids. split.
    + unfold PyDict.keys in *. rewrite map_app, Hk, length_app. simpl.
      rewrite Nat.add_1_r. now rewrite first_ids_S.
    + apply Forall_app. split; [assumption|]. now repeat constructor.
  - rewrite create_task_invalid by assumption. now split.
Qed.

Lemma update_task_consistent task_id task_data db :
  Spec.consistent db -> Spec.consistent (snd (update_task task_id task_data db)).
Proof.
  intros [Hk Hf]. destruct (PyDict.get task_id db) as [stored|] eqn:Hget.
  - rewrite (update_task_found _ _ _ Hget). simpl snd.
    pose proof (get_Some_In _ _ Hget) as Hin.
    assert (Hkey : In task_id (PyDict.keys db))
      by (unfold PyDict.keys; now apply (in_map fst) in Hin).
    split.
    + rewrite keys_setitem_present by assumption.
      replace (length (PyDict.setitem task_id _ db)) with (length db); [assumption|].
      rewrite <- (length_map fst db), <- (length_map fst (PyDict.setitem _ _ db)).
      fold (PyDict.keys db).
      fold (PyDict.keys (PyDict.setitem task_id
              (model_copy stored (model_dump_exclude_unset task_data)) db)).
      now rewrite keys_setitem_present.
    + apply setitem_Forall; [assumption|]. simpl.
      rewrite (proj1 (model_copy_frame _ _)).
      rewrite Forall_forall in Hf. exact (Hf _ Hin).
  - rewrite (update_task_missing _ _ _ Hget). now split.
Qed.

Section Identifiers.
Context {L : Py.StrLower}.

Lemma serve_consistent r db :
  Spec.consistent db -> Spec.consistent (Spec.serve r db).
Proof.
  intros H. destruct r; simpl.
  - now apply create_task_consistent.
  - unfold get_task; simpl. now destruct (PyDict.get task_id db).
  - exact H.
  - now apply update_task_consistent.
Qed.

Lemma serve_all_consistent rs db :
  Spec.consistent db -> Spec.consistent (Spec.serve_all rs db).
Proof.
  unfold Spec.serve_all. revert db.
  induction rs as [|r rs IH]; intros db H; simpl; [assumption|].
  apply IH. now apply serve_consistent.
Qed.

Lemma consistent_values_ids db :
  Spec.consistent db ->
  map TaskInternal.task_id (PyDict.values db) = PyDict.keys db.
Proof.
  intros [_ Hf]. unfold PyDict.values, PyDict.keys. rewrite map_map.
  induction Hf as [|kv db Hkv _ IH]; simpl; [reflexivity|].
  now rewrite Hkv, IH.
Qed.

(** Whatever was served before, a listing comes back in creation order:
    the identifiers it shows are taken from 1, 2, ..., n in this order. *)
Lemma list_tasks_in_creation_order rs min_priority query cookie out :
  let db := Spec.serve_all rs (PyDict.empty TaskInternal.t) in
  fst (list_tasks min_priority query cookie db) = inr out ->
  subsequence (map TaskInternal.task_id out) (Spec.first_ids (length db)).
Proof.
  intros db. rewrite list_tasks_run. simpl fst. intros Hout.
  assert (Hc : Spec.consistent db)
    by (apply serve_all_consistent; split; [reflexivity | constructor]).
  rewrite <- (proj1 Hc), <- (consistent_values_ids Hc).
  apply subsequence_map. now apply (filter_results_inr _ _ _ _ Hout).
Qed.

(** No request removes a record or changes the identifier it carries. *)
Lemma serve_keeps_identifier r db k t :
  PyDict.get k db = Some t ->
  exists t', PyDict.get k (Spec.serve r db) = Some t'
             /\ TaskInternal.task_id t' = TaskInternal.task_id t.
Proof.
  intros Hget. destruct r; simpl.
  - destruct (TaskCreate.validate task) eqn:Hv.
    + rewrite create_task_valid by assumption. cbv zeta. simpl snd.
      exists t. split; [|reflexivity].
      rewrite get_setitem_ne; [assumption|].
      intros ->. apply (next_id_fresh db).
      apply get_Some_In in Hget. unfold PyDict.keys.
      now apply (in_map fst) in Hget.
    + rewrite create_task_invalid by assumption. eauto.
  - unfold get_task; simpl. destruct (PyDict.get task_id db); eauto.
  - eauto.
  - destruct (PyDict.get task_id db) as [stored|] eqn:Hs.
    + rewrite (update_task_found _ _ _ Hs). simpl snd.
      destruct (Z.eq_dec k task_id) as [->|Hne].
      * rewrite get_setitem_eq. eexists. split; [reflexivity|].
        rewrite (proj1 (model_copy_frame _ _)). congruence.
      * rewrite get_setitem_ne by assumption. eauto.
    + rewrite (update_task_missing _ _ _ Hs). eauto.
Qed.

(** C5.  [create_task] gives the new task the identifier
    [max(keys, default 0) + 1], which no record of the store carries, and
    files it last.  Starting from the empty store the first task gets 1,
    and whatever requests are served the keys of the store are 1, 2, 3, ...
    in creation order, each record carrying its key as identifier; no
    request removes a record or changes its identifier. *)
Theorem create_task_identifiers :
  (forall (db : TASKS_DB) (task : TaskCreate.t) (now : datetime),
      TaskCreate.validate task = true ->
      exists new,
        create_task task now db
        = (inr new, db ++ [(Py.max_default (PyDict.keys db) 0 + 1, new)])
        /\ TaskInternal.task_id new = Py.max_default (PyDict.keys db) 0 + 1
        /\ ~ In (TaskInternal.task_id new) (PyDict.keys db))
  /\ (forall (task : TaskCreate.t) (now : datetime),
         TaskCreate.validate task = true ->
         exists new, fst (create_task task now (PyDict.empty TaskInternal.t)) = inr new
                     /\ TaskInternal.task_id new = 1)
  /\ (forall rs : list Spec.request,
         let db := Spec.serve_all rs (PyDict.empty TaskInternal.t) in
         PyDict.keys db = Spec.first_ids (length db)
         /\ forall k t, PyDict.get k db = Some t -> TaskInternal.task_id t = k)
  /\ (forall (r : Spec.request) (db : TASKS_DB) k t,
         PyDict.get k db = Some t ->
         exists t', PyDict.get k (Spec.serve r db) = Some t'
                    /\ TaskInternal.task_id t' = TaskInternal.task_id t).
Proof.
  split; [|split; [|split]].
  - intros db task now Hv. eexists. split; [|split].
    + rewrite create_task_valid by assumption. cbv zeta.
      rewrite setitem_fresh by apply next_id_fresh. reflexivity.
    + reflexivity.
    + apply next_id_fresh.
  - intros task now Hv. eexists. split.
    + rewrite create_task_valid by assumption. reflexivity.
    + reflexivity.
  - intros rs db.
    assert (H : Spec.consistent db)
      by (apply serve_all_consistent; split; [reflexivity | constructor]).
    destruct H as [Hk Hf]. split; [assumption|].
    intros k t Hget. apply get_Some_In in Hget.
    rewrite Forall_forall in Hf. exact (Hf _ Hget).
  - intros r db k t. apply serve_keeps_identifier.
Qed.

End Identifiers.
End StoreFacts.


(* ===================================================================== *)
(** * The theorems at the fixture of the test-suite *)
(* ===================================================================== *)

(** [test_get_all_tasks_filtered]: three tasks, two of priority 2 or more,
    one of them with "title 2" in its title, one task above the cookie's 3. *)
Example get_all_tasks_filtered :
  let L := Py.lower_latin1 in
  fst (InMemory.list_tasks None None None Spec.fixture)
  = inr [Spec.task 1 "1"; Spec.task 2 "2"; Spec.task 3 "3"]
  /\ fst (InMemory.list_tasks (Some 2) None None Spec.fixture)
     = inr [Spec.task 2 "2"; Spec.task 3 "3"]
  /\ fst (InMemory.list_tasks (Some 2) (Some (Py.lit "title 2")) None Spec.fixture)
     = inr [Spec.task 2 "2"]
  /\ fst (InMemory.list_tasks None None (Some 3) Spec.fixture)
     = inr [Spec.task 3 "3"].
Proof. cbv zeta. split; [|split; [|split]]; reflexivity. Qed.

(** [test_patch_task]: only the description changes. *)
Example patch_task :
  fst (InMemory.update_task 1
         (InMemory.TaskUpdate.mk None (Some (Some (Py.lit "updated"))) None)
         [(1, InMemory.TaskInternal.mk 1 (Some (Py.lit "test title"))
                (Some (Py.lit "test description")) (Some 3) 0)])
  = inr (InMemory.TaskInternal.mk 1 (Some (Py.lit "test title"))
           (Some (Py.lit "updated")) (Some 3) 0).
Proof. reflexivity. Qed.

(** A patch that sets the title to null stores a task without a title, and
    the next listing with a query raises on it. *)
Example patch_null_title_then_list :
  let L := Py.lower_latin1 in
  let db := snd (InMemory.update_task 2
                   (InMemory.TaskUpdate.mk (Some None) None None) Spec.fixture) in
  Spec.well_typed (PyDict.values db) = false
  /\ fst (InMemory.list_tasks None (Some (Py.lit "title")) None db)
     = inl Py.AttributeError.
Proof. cbv zeta. split; reflexivity. Qed.

Lemma list_tasks_min_priority_exact_witness :
  let L := Py.lower_latin1 in
  let query := Some (Py.lit "TITLE 2") in
  Spec.well_typed (PyDict.values Spec.fixture) = true
  /\ exists out,
       InMemory.list_tasks (Some 2) query (Some 3) Spec.fixture
       = (inr out, Spec.fixture)
       /\ (forall t, In t out -> Spec.priority_at_least 2 t)
       /\ (forall t, In t (PyDict.values Spec.fixture) ->
                     Spec.priority_at_least 2 t ->
                     Spec.satisfies_query query t -> In t out)
       /\ (forall t, In t out <->
                     In t (PyDict.values Spec.fixture)
                     /\ Spec.priority_at_least 2 t /\ Spec.satisfies_query query t).
Proof.
  cbv zeta. split; [reflexivity|].
  apply (@list_tasks_min_priority_exact Py.lower_latin1 Spec.fixture 2
           (Some (Py.lit "TITLE 2")) (Some 3)).
  reflexivity.
Defined.

Lemma list_tasks_preserves_order_witness :
  let L := Py.lower_latin1 in
  Spec.well_typed (PyDict.values Spec.fixture) = true
  /\ exists out,
       InMemory.list_tasks (Some 2) (Some (Py.lit "title")) None Spec.fixture
       = (inr out, Spec.fixture)
       /\ subsequence out (PyDict.values Spec.fixture).
Proof.
  cbv zeta. split; [reflexivity|].
  apply (@list_tasks_preserves_order Py.lower_latin1 Spec.fixture (Some 2)
           (Some (Py.lit "title")) None).
  reflexivity.
Defined.

Lemma update_task_merge_witness :
  let task_data :=
    InMemory.TaskUpdate.mk None (Some (Some (Py.lit "updated"))) (Some None) in
  PyDict.get 2 Spec.fixture = Some (Spec.task 2 "2")
  /\ exists updated,
       InMemory.update_task 2 task_data Spec.fixture
       = (inr updated, PyDict.setitem 2 updated Spec.fixture)
       /\ InMemory.TaskInternal.title updated = Some (Py.lit "test title 2")
       /\ InMemory.TaskInternal.description updated = Some (Py.lit "updated")
       /\ InMemory.TaskInternal.priority updated = None
       /\ InMemory.TaskInternal.task_id updated = 2
       /\ InMemory.TaskInternal.created_at updated = 0
       /\ PyDict.get 2 (PyDict.setitem 2 updated Spec.fixture) = Some updated
       /\ (forall k, k <> 2 ->
                     PyDict.get k (PyDict.setitem 2 updated Spec.fixture)
                     = PyDict.get k Spec.fixture)
       /\ PyDict.keys (PyDict.setitem 2 updated Spec.fixture) = [1; 2; 3].
Proof.
  cbv zeta. split; [reflexivity|].
  apply (@update_task_merge Spec.fixture 2 (Spec.task 2 "2")
           (InMemory.TaskUpdate.mk None (Some (Some (Py.lit "updated"))) (Some None))).
  reflexivity.
Defined.

Lemma task_not_found_witness :
  (~ In 4 (PyDict.keys Spec.fixture)
   /\ InMemory.get_task 4 Spec.fixture
      = (inl (Py.HTTPException 404 "Task not found"), Spec.fixture))
  /\ (In 2 (PyDict.keys Spec.fixture)
      /\ exists t, In (2, t) Spec.fixture /\ PyDict.get 2 Spec.fixture = Some t
                   /\ InMemory.get_task 2 Spec.fixture = (inr t, Spec.fixture)).
Proof.
  assert (H4 : ~ In 4 (PyDict.keys Spec.fixture))
    by (simpl; intros [H|[H|[H|[]]]]; discriminate H).
  assert (H2 : In 2 (PyDict.keys Spec.fixture)) by (simpl; auto).
  split.
  - split; [exact H4|].
    exact (proj1 (proj1 (task_not_found Spec.fixture 4) H4)).
  - split; [exact H2|].
    exact (proj2 (task_not_found Spec.fixture 2) H2).
Defined.

Lemma create_task_identifiers_witness :
  let task := InMemory.TaskCreate.mk (Py.lit "abc") None 3 in
  InMemory.TaskCreate.validate task = true
  /\ (exists new,
        InMemory.create_task task 7 Spec.fixture
        = (inr new, Spec.fixture ++ [(4, new)])
        /\ InMemory.TaskInternal.task_id new = 4
        /\ ~ In (InMemory.TaskInternal.task_id new) (PyDict.keys Spec.fixture))
  /\ (exists new,
        fst (InMemory.create_task task 7 (PyDict.empty InMemory.TaskInternal.t))
        = inr new
        /\ InMemory.TaskInternal.task_id new = 1).
Proof.
  cbv zeta. split; [reflexivity|]. split.
  - exact (proj1 (@create_task_identifiers Py.lower_latin1) Spec.fixture
             (InMemory.TaskCreate.mk (Py.lit "abc") None 3) 7 eq_refl).
  - exact (proj1 (proj2 (@create_task_identifiers Py.lower_latin1))
             (InMemory.TaskCreate.mk (Py.lit "abc") None 3) 7 eq_refl).
Defined.

(* ===================================================================== *)
(** * Creating, reading and patching: how the handlers compose *)
(* ===================================================================== *)

Section DictMore.
Context {V : Type}.
Implicit Types (d : PyDict.t V) (k : Z) (v : V).

Lemma setitem_same k v d : PyDict.get k d = Some v -> PyDict.setitem k v d = d.
Proof.
  induction d as [|[k' v'] d IH]; simpl; [discriminate|].
  destruct (Z.eqb_spec k k') as [->|Hne].
  - now intros [= ->].
  - intros H. now rewrite IH.
Qed.

Lemma setitem_setitem k v v' d :
  PyDict.setitem k v' (PyDict.setitem k v d) = PyDict.setitem k v' d.
Proof.
  induction d as [|[k0 v0] d IH]; simpl.
  - now rewrite Z.eqb_refl.
  - destruct (Z.eqb_spec k k0) as [->|Hne]; simpl.
    + now rewrite Z.eqb_refl.
    + destruct (Z.eqb_spec k k0); [contradiction|]. now rewrite IH.
Qed.

Lemma get_Some_values k v d : PyDict.get k d = Some v -> In v (PyDict.values d).
Proof.
  intros H. apply get_Some_In in H. unfold PyDict.values.
  now apply (in_map snd) in H.
Qed.

Lemma length_setitem_present k v d :
  In k (PyDict.keys d) -> length (PyDict.setitem k v d) = length d.
Proof.
  intros H. rewrite <- (length_map fst (PyDict.setitem k v d)), <- (length_map fst d).
  fold (PyDict.keys d). fold (PyDict.keys (PyDict.setitem k v d)).
  now rewrite keys_setitem_present.
Qed.

Lemma values_setitem_fresh k v d :
  ~ In k (PyDict.keys d) -> PyDict.values (PyDict.setitem k v d) = PyDict.values d ++ [v].
Proof.
  intros H. rewrite setitem_fresh by assumption.
  unfold PyDict.values. now rewrite map_app.
Qed.

End DictMore.

Lemma comprehension_app_inr {A} (p : A -> Exc bool) xs ys xs' ys' :
  comprehension p xs = inr xs' -> comprehension p ys = inr ys' ->
  comprehension p (xs ++ ys) = inr (xs' ++ ys').
Proof.
  intros Hx Hy.
  destruct (comprehension_inr _ _ Hx) as [-> Hax].
  destruct (comprehension_inr _ _ Hy) as [-> Hay].
  rewrite <- filter_app. apply comprehension_total.
  intros x Hin. apply in_app_or in Hin as [Hin|Hin]; eauto.
Qed.

Section Composition.
Import InMemory.
Context {L : Py.StrLower}.

(** Two collections that are listed without an exception are listed
    together as the two listings, one after the other. *)
Lemma filter_results_app_inr T1 T2 min_priority query cookie out1 out2 :
  filter_results T1 min_priority query cookie = inr out1 ->
  filter_results T2 min_priority query cookie = inr out2 ->
  filter_results (T1 ++ T2) min_priority query cookie = inr (out1 ++ out2).
Proof.
  rewrite !filter_results_steps.
  set (eff := Spec.effective_min_priority min_priority cookie).
  destruct (Spec.priority_step eff T1) as [e|r1] eqn:H1; [discriminate|].
  destruct (Spec.priority_step eff T2) as [e|r2] eqn:H2; [discriminate|].
  intros Q1 Q2.
  assert (H12 : Spec.priority_step eff (T1 ++ T2) = inr (r1 ++ r2)).
  { revert H1 H2. unfold Spec.priority_step. destruct eff as [P|].
    - apply comprehension_app_inr.
    - now intros [= <-] [= <-]. }
  rewrite H12. revert Q1 Q2. unfold Spec.query_step.
  destruct query as [q|]; [|now intros [= <-] [= <-]].
  destruct (Py.truthy (Some q)); [|now intros [= <-] [= <-]].
  apply comprehension_app_inr.
Qed.

(** What the listing makes of a single well-typed task: the task or
    nothing. *)
Lemma filter_results_single t min_priority query cookie :
  TaskInternal.well_typed t = true ->
  let passes :=
    (forall P, Spec.effective_min_priority min_priority cookie = Some P ->
               Spec.priority_at_least P t)
    /\ Spec.satisfies_query query t in
  (filter_results [t] min_priority query cookie = inr [t] /\ passes)
  \/ (filter_results [t] min_priority query cookie = inr [] /\ ~ passes).
Proof.
  intros WT passes.
  assert (WT' : Spec.well_typed [t] = true)
    by (unfold Spec.well_typed; simpl; now rewrite WT).
  destruct (filter_results_total _ min_priority query cookie WT') as [out Hout].
  destruct (filter_results_inr _ _ _ _ Hout) as [Hsub M].
  rewrite Hout. inversion Hsub as [|x sub l Hs|x sub l Hs]; subst.
  - inversion Hs; subst. left. split; [reflexivity|].
    apply (proj1 (M t)). now left.
  - inversion Hs; subst. right. split; [reflexivity|].
    intros Hp. apply (proj2 (M t)). split; [now left | exact Hp].
Qed.

Lemma get_task_run task_id db :
  get_task task_id db
  = (match PyDict.get task_id db with
     | Some t => inr t
     | None => inl (Py.HTTPException 404 "Task not found")
     end, db).
Proof. unfold get_task; simpl. now destruct (PyDict.get task_id db). Qed.

(** X1.  A task that was created is read back under the identifier it was
    given, and the lookups of every other identifier answer as before. *)
Theorem create_then_get (db : TASKS_DB) (task : TaskCreate.t) (now : datetime) :
  TaskCreate.validate task = true ->
  exists new db',
    create_task task now db = (inr new, db')
    /\ get_task (TaskInternal.task_id new) db' = (inr new, db')
    /\ forall k, k <> TaskInternal.task_id new ->
                 fst (get_task k db') = fst (get_task k db).
Proof.
  intros Hv. do 2 eexists. split; [now apply create_task_valid|]. cbv zeta.
  rewrite !get_task_run. cbn [TaskInternal.task_id fst]. split.
  - now rewrite get_setitem_eq.
  - intros k Hk. rewrite !get_task_run. cbn [fst].
    now rewrite (get_setitem_ne _ _ Hk).
Qed.

(** X2.  After a creation every listing that returned before returns the
    same tasks followed by the new task when it passes the filters, and the
    same tasks alone when it does not. *)
Theorem create_then_list
    (db : TASKS_DB) (task : TaskCreate.t) (now : datetime)
    (min_priority : option Z) (query : option Py.str) (cookie : option Z)
    (out : list TaskInternal.t) :
  TaskCreate.validate task = true ->
  fst (list_tasks min_priority query cookie db) = inr out ->
  exists new db',
    create_task task now db = (inr new, db')
    /\ let passes :=
         (forall P, Spec.effective_min_priority min_priority cookie = Some P ->
                    Spec.priority_at_least P new)
         /\ Spec.satisfies_query query new in
       (fst (list_tasks min_priority query cookie db') = inr (out ++ [new])
        /\ passes)
       \/ (fst (list_tasks min_priority query cookie db') = inr out /\ ~ passes).
Proof.
  intros Hv Hout. do 2 eexists. split; [now apply create_task_valid|].
  rewrite list_tasks_run in Hout. simpl fst in Hout.
  rewrite list_tasks_run. simpl fst.
  rewrite values_setitem_fresh by apply next_id_fresh.
  match goal with |- context [PyDict.values db ++ [?t]] => set (new := t) end.
  destruct (filter_results_single new min_priority query cookie eq_refl)
    as [[H1 Hp]|[H1 Hp]].
  - left. split; [|exact Hp].
    apply filter_results_app_inr; assumption.
  - right. split; [|exact Hp].
    rewrite <- (app_nil_r out). apply filter_results_app_inr; assumption.
Qed.

Lemma model_copy_empty stored :
  model_copy stored (model_dump_exclude_unset Patch.empty) = stored.
Proof. reflexivity. Qed.

Lemma model_copy_twice stored task_data :
  model_copy (model_copy stored (model_dump_exclude_unset task_data))
    (model_dump_exclude_unset task_data)
  = model_copy stored (model_dump_exclude_unset task_data).
Proof. now destruct stored, task_data as [[t|] [d|] [p|]]. Qed.

Lemma model_copy_followed_by stored first second :
  model_copy (model_copy stored (model_dump_exclude_unset first))
    (model_dump_exclude_unset second)
  = model_copy stored (model_dump_exclude_unset (Patch.followed_by first second)).
Proof.
  now destruct stored, first as [[t1|] [d1|] [p1|]], second as [[t2|] [d2|] [p2|]].
Qed.

(** X3.  A patch whose payload sets no field returns the stored task and
    leaves the store exactly as it was. *)
Theorem update_task_empty_payload
    (db : TASKS_DB) (task_id : Z) (stored : TaskInternal.t) :
  PyDict.get task_id db = Some stored ->
  update_task task_id Patch.empty db = (inr stored, db).
Proof.
  intros Hget. rewrite (update_task_found _ _ _ Hget), model_copy_empty.
  now rewrite setitem_same.
Qed.

(** X4.  Patching is idempotent: sending the same payload a second time
    gives the same answer (the same task, or the same 404) and leaves the
    store as the first patch left it. *)
Theorem update_task_idempotent
    (db : TASKS_DB) (task_id : Z) (task_data : TaskUpdate.t) :
  update_task task_id task_data (snd (update_task task_id task_data db))
  = update_task task_id task_data db.
Proof.
  destruct (PyDict.get task_id db) as [stored|] eqn:Hget.
  - rewrite (update_task_found task_id task_data _ Hget). simpl snd.
    rewrite (update_task_found task_id task_data _ (get_setitem_eq _ _ _)).
    now rewrite model_copy_twice, setitem_setitem.
  - rewrite (update_task_missing task_id task_data _ Hget). simpl snd.
    now apply update_task_missing.
Qed.

(** X5.  Two patches of the same identifier in a row amount to one patch
    with the payload in which each field is what the later payload sets, or
    else what the earlier one sets: same answer, same store. *)
Theorem update_task_twice
    (db : TASKS_DB) (task_id : Z) (first second : TaskUpdate.t) :
  update_task task_id second (snd (update_task task_id first db))
  = update_task task_id (Patch.followed_by first second) db.
Proof.
  destruct (PyDict.get task_id db) as [stored|] eqn:Hget.
  - rewrite (update_task_found task_id first _ Hget). simpl snd.
    rewrite (update_task_found task_id second _ (get_setitem_eq _ _ _)).
    rewrite (update_task_found task_id (Patch.followed_by first second) _ Hget).
    now rewrite model_copy_followed_by, setitem_setitem.
  - rewrite (update_task_missing task_id first _ Hget). simpl snd.
    now rewrite !(update_task_missing task_id _ _ Hget).
Qed.

End Composition.

(* ===================================================================== *)
(** * Listing: exceptions, thresholds and the order of the two tests *)
(* ===================================================================== *)

Lemma filter_filter_andb {A} (f g : A -> bool) (l : list A) :
  filter g (filter f l) = filter (fun x => f x && g x) l.
Proof.
  induction l as [|x l IH]; simpl; [reflexivity|].
  destruct (f x); simpl; [destruct (g x)|]; now rewrite IH.
Qed.

Section ComprehensionErrors.
Context {A : Type} (p : A -> Exc bool).

Lemma comprehension_inl xs e :
  comprehension p xs = inl e -> exists x, In x xs /\ p x = inl e.
Proof.
  induction xs as [|x xs IH]; simpl; [discriminate|].
  destruct (p x) as [e'|b] eqn:Hx.
  - intros [= <-]. exists x. split; [now left | assumption].
  - destruct (comprehension p xs) as [e'|rest]; [|discriminate].
    intros [= <-]. destruct (IH eq_refl) as (y & Hy & Hp).
    exists y. split; [now right | assumption].
Qed.

(** A condition that can raise one exception only: the comprehension
    raises it as soon as some element does. *)
Lemma comprehension_raises xs e0 :
  (forall x e, p x = inl e -> e = e0) ->
  (exists x, In x xs /\ p x = inl e0) ->
  comprehension p xs = inl e0.
Proof.
  intros Huniq (x & Hin & Hx).
  destruct (comprehension p xs) as [e|out] eqn:H.
  - destruct (comprehension_inl _ H) as (y & _ & Hy).
    now rewrite (Huniq y e Hy).
  - destruct (comprehension_inr _ _ H) as [_ Hall].
    rewrite (Hall x Hin) in Hx. discriminate.
Qed.

End ComprehensionErrors.

Section ListingMore.
Import InMemory.
Context {L : Py.StrLower}.

Lemma priority_ge_inl P t e :
  priority_ge P t = inl e -> e = Py.TypeError /\ TaskInternal.priority t = None.
Proof.
  unfold priority_ge. destruct (TaskInternal.priority t); [discriminate|].
  now intros [= <-].
Qed.

Lemma title_matches_inl Q t e :
  title_matches Q t = inl e -> e = Py.AttributeError /\ TaskInternal.title t = None.
Proof.
  unfold title_matches. destruct (TaskInternal.title t); [discriminate|].
  now intros [= <-].
Qed.

Lemma priority_step_inl eff T e :
  Spec.priority_step eff T = inl e ->
  e = Py.TypeError /\ eff <> None
  /\ exists t, In t T /\ TaskInternal.priority t = None.
Proof.
  unfold Spec.priority_step. destruct eff as [P|]; [|discriminate].
  intros H. destruct (comprehension_inl _ _ H) as (t & Hin & Ht).
  destruct (priority_ge_inl _ _ Ht) as [-> Hp].
  split; [reflexivity|]. split; [discriminate|]. eauto.
Qed.

Lemma query_step_inl query T e :
  Spec.query_step query T = inl e ->
  e = Py.AttributeError /\ Py.truthy query = true
  /\ exists t, In t T /\ TaskInternal.title t = None.
Proof.
  unfold Spec.query_step. destruct query as [q|]; [|discriminate].
  destruct (Py.truthy (Some q)); [|discriminate].
  intros H. destruct (comprehension_inl _ _ H) as (t & Hin & Ht).
  destruct (title_matches_inl _ _ Ht) as [-> Hp].
  split; [reflexivity|]. split; [reflexivity|]. eauto.
Qed.

(** With a threshold in force, one task without a priority is enough for
    [TypeError]. *)
Lemma filter_results_TypeError T min_priority query cookie :
  Spec.effective_min_priority min_priority cookie <> None ->
  (exists t, In t T /\ TaskInternal.priority t = None) ->
  filter_results T min_priority query cookie = inl Py.TypeError.
Proof.
  intros Heff (t & Hin & Ht). rewrite filter_results_steps.
  unfold Spec.priority_step.
  destruct (Spec.effective_min_priority min_priority cookie) as [P|];
    [|contradiction].
  rewrite (comprehension_raises (priority_ge P) T (e0 := Py.TypeError)).
  - reflexivity.
  - intros x e Hx. now apply priority_ge_inl in Hx.
  - exists t. split; [assumption|]. unfold priority_ge. now rewrite Ht.
Qed.

(** Without a threshold and with a non-empty query, one task without a
    title is enough for [AttributeError]. *)
Lemma filter_results_AttributeError T min_priority query cookie :
  Spec.effective_min_priority min_priority cookie = None ->
  Py.truthy query = true ->
  (exists t, In t T /\ TaskInternal.title t = None) ->
  filter_results T min_priority query cookie = inl Py.AttributeError.
Proof.
  intros Heff Hq (t & Hin & Ht). rewrite filter_results_steps, Heff. simpl.
  unfold Spec.query_step. destruct query as [q|]; [|discriminate].
  rewrite Hq. apply comprehension_raises.
  - intros x e Hx. now apply title_matches_inl in Hx.
  - exists t. split; [assumption|]. unfold title_matches. now rewrite Ht.
Qed.

(** X6.  A listing never writes to the store.  With a threshold in force
    it raises [TypeError] as soon as one stored task has no priority;
    without a threshold and with a non-empty query it raises
    [AttributeError] as soon as one stored task has no title.  These are the
    only exceptions it raises, and it raises them for no other reason. *)
Theorem list_tasks_raises
    (db : TASKS_DB) (min_priority : option Z) (query : option Py.str)
    (cookie : option Z) :
  let eff := Spec.effective_min_priority min_priority cookie in
  let outcome := fst (list_tasks min_priority query cookie db) in
  snd (list_tasks min_priority query cookie db) = db
  /\ (eff <> None ->
      (exists t, In t (PyDict.values db) /\ TaskInternal.priority t = None) ->
      outcome = inl Py.TypeError)
  /\ (eff = None -> Py.truthy query = true ->
      (exists t, In t (PyDict.values db) /\ TaskInternal.title t = None) ->
      outcome = inl Py.AttributeError)
  /\ (forall e, outcome = inl e ->
        (e = Py.TypeError /\ eff <> None
         /\ exists t, In t (PyDict.values db) /\ TaskInternal.priority t = None)
        \/ (e = Py.AttributeError /\ Py.truthy query = true
            /\ exists t, In t (PyDict.values db) /\ TaskInternal.title t = None)).
Proof.
  intros eff outcome. subst outcome. rewrite list_tasks_run. simpl fst. simpl snd.
  split; [reflexivity|]. split; [|split].
  - now apply filter_results_TypeError.
  - now apply filter_results_AttributeError.
  - intros e. rewrite filter_results_steps. fold eff.
    destruct (Spec.priority_step eff (PyDict.values db)) as [e1|r1] eqn:H1.
    + intros [= <-]. left. now apply priority_step_inl in H1.
    + intros H2. right. apply query_step_inl in H2 as (-> & Hq & t & Hin & Ht).
      split; [reflexivity|]. split; [assumption|].
      exists t. split; [|assumption].
      apply (subsequence_In (proj1 (priority_step_inr _ _ H1))). assumption.
Qed.

(** X7.  A patch that sets the priority of a stored task to null is
    accepted and stored, and from then on every listing with a threshold
    (explicit or from the cookie) raises [TypeError]; a patch that sets the
    title to null makes every listing with a non-empty query and no
    threshold raise [AttributeError]. *)
Theorem null_patch_breaks_listing
    (db : TASKS_DB) (task_id : Z) (stored : TaskInternal.t) :
  PyDict.get task_id db = Some stored ->
  (let db' := snd (update_task task_id (TaskUpdate.mk None None (Some None)) db) in
   forall min_priority query cookie,
     Spec.effective_min_priority min_priority cookie <> None ->
     list_tasks min_priority query cookie db' = (inl Py.TypeError, db'))
  /\ (let db' := snd (update_task task_id (TaskUpdate.mk (Some None) None None) db) in
      forall query,
        Py.truthy query = true ->
        list_tasks None query None db' = (inl Py.AttributeError, db')).
Proof.
  intros Hget. split; intros db'.
  - intros min_priority query cookie Heff. rewrite list_tasks_run.
    rewrite filter_results_TypeError; [reflexivity | assumption |].
    subst db'. rewrite (update_task_found _ _ _ Hget). simpl snd.
    eexists. split; [apply (get_Some_values task_id), get_setitem_eq|].
    reflexivity.
  - intros query Hq. rewrite list_tasks_run.
    rewrite filter_results_AttributeError; [reflexivity | reflexivity | assumption |].
    subst db'. rewrite (update_task_found _ _ _ Hget). simpl snd.
    eexists. split; [apply (get_Some_values task_id), get_setitem_eq|].
    reflexivity.
Qed.

Lemma well_typed_filter (f : TaskInternal.t -> bool) T :
  Spec.well_typed T = true -> Spec.well_typed (filter f T) = true.
Proof.
  unfold Spec.well_typed. rewrite !forallb_forall.
  intros H t Hin. apply H. now apply filter_In in Hin.
Qed.

(** On well-typed tasks the listing is a plain filter. *)
Lemma filter_results_filter T min_priority query cookie :
  Spec.well_typed T = true ->
  filter_results T min_priority query cookie
  = inr (filter (Filter.keeps (Spec.effective_min_priority min_priority cookie) query) T).
Proof.
  intros WT. rewrite filter_results_steps.
  set (eff := Spec.effective_min_priority min_priority cookie).
  set (f1 := fun t => match eff with
                      | Some P => holds (priority_ge P) t
                      | None => true
                      end).
  set (f2 := fun t => match query with
                      | Some q => if Py.truthy query
                                  then holds (title_matches q) t else true
                      | None => true
                      end).
  assert (H1 : Spec.priority_step eff T = inr (filter f1 T)).
  { unfold Spec.priority_step, f1. destruct eff as [P|].
    - apply comprehension_total. intros t Hin.
      destruct (well_typed_In _ _ WT Hin) as (title & pr & _ & Hp).
      unfold priority_ge. rewrite Hp. eauto.
    - now rewrite filter_true. }
  rewrite H1.
  assert (H2 : Spec.query_step query (filter f1 T) = inr (filter f2 (filter f1 T))).
  { unfold Spec.query_step, f2. destruct query as [q|]; [|now rewrite filter_true].
    destruct (Py.truthy (Some q)); [|now rewrite filter_true].
    apply comprehension_total. intros t Hin.
    apply filter_In in Hin as [Hin _].
    destruct (well_typed_In _ _ WT Hin) as (title & pr & Ht & _).
    unfold title_matches. rewrite Ht. eauto. }
  rewrite H2, filter_filter_andb. reflexivity.
Qed.

(** X8.  Raising the threshold only drops tasks: over well-typed tasks the
    listing for a higher threshold is a subsequence of the listing for a
    lower one, and it is what the higher threshold keeps of that listing. *)
Theorem list_tasks_threshold_monotone
    (T : list TaskInternal.t) (P1 P2 : Z) (query : option Py.str)
    (cookie : option Z) :
  Spec.well_typed T = true -> P1 <= P2 ->
  exists out1 out2,
    filter_results T (Some P1) query cookie = inr out1
    /\ filter_results T (Some P2) query cookie = inr out2
    /\ subsequence out2 out1
    /\ filter_results out1 (Some P2) query cookie = inr out2.
Proof.
  intros WT Hle. do 2 eexists.
  split; [now apply filter_results_filter|].
  split; [now apply filter_results_filter|].
  simpl Spec.effective_min_priority.
  assert (E : filter (Filter.keeps (Some P2) query)
                (filter (Filter.keeps (Some P1) query) T)
              = filter (Filter.keeps (Some P2) query) T).
  { rewrite filter_filter_andb. apply filter_ext_in. intros t Hin.
    destruct (well_typed_In _ _ WT Hin) as (title & pr & _ & Hp).
    unfold Filter.keeps, holds, priority_ge. rewrite Hp.
    set (b := match query with Some _ => _ | None => _ end).
    destruct (Z.leb_spec P2 pr); [|now destruct (P1 <=? pr), b].
    destruct (Z.leb_spec P1 pr); [|lia].
    now destruct b. }
  split.
  - rewrite <- E. apply filter_subsequence.
  - rewrite filter_results_filter by now apply well_typed_filter.
    simpl Spec.effective_min_priority. now rewrite E.
Qed.

(** X9.  Over well-typed tasks the two tests can be run in either order,
    one listing after the other, and give what the single listing with both
    parameters gives. *)
Theorem list_tasks_tests_commute
    (T : list TaskInternal.t) (min_priority : option Z) (query : option Py.str)
    (cookie : option Z) :
  Spec.well_typed T = true ->
  (r <- filter_results T None query None ;;
   filter_results r min_priority None cookie)
  = filter_results T min_priority query cookie
  /\ (r <- filter_results T min_priority None cookie ;;
      filter_results r None query None)
     = filter_results T min_priority query cookie.
Proof.
  intros WT.
  rewrite (filter_results_filter _ None query None WT).
  rewrite (filter_results_filter _ min_priority None cookie WT).
  rewrite (filter_results_filter _ min_priority query cookie WT).
  simpl bind.
  rewrite !filter_results_filter by now apply well_typed_filter.
  rewrite !filter_filter_andb. simpl Spec.effective_min_priority.
  split; f_equal; apply filter_ext; intros t; unfold Filter.keeps; simpl;
    destruct (Spec.effective_min_priority min_priority cookie);
    rewrite ?andb_true_r; try reflexivity; apply andb_comm.
Qed.

End ListingMore.

(* ===================================================================== *)
(** * Sequences of requests: what every reachable store satisfies *)
(* ===================================================================== *)

Lemma values_setitem_Forall {V} (P : V -> Prop) k v (d : PyDict.t V) :
  Forall P (PyDict.values d) -> P v -> Forall P (PyDict.values (PyDict.setitem k v d)).
Proof.
  intros HF Hv. induction d as [|[k' v'] d IH]; simpl.
  - now repeat constructor.
  - inversion HF as [|? ? Hhd Htl]; subst.
    destruct (Z.eqb_spec k k'); simpl; constructor; auto.
Qed.

Section Traces.
Import InMemory.
Context {L : Py.StrLower}.

Lemma serve_length r db :
  length (Spec.serve r db)
  = (length db + Trace.accepted_creates [r])%nat.
Proof.
  destruct r; simpl.
  - destruct (TaskCreate.validate task) eqn:Hv.
    + rewrite create_task_valid by assumption. cbv zeta. simpl snd.
      rewrite setitem_fresh by apply next_id_fresh.
      rewrite length_app. reflexivity.
    + rewrite create_task_invalid by assumption. simpl. lia.
  - rewrite get_task_run. simpl. lia.
  - lia.
  - destruct (PyDict.get task_id db) as [stored|] eqn:Hget.
    + rewrite (update_task_found _ _ _ Hget). simpl snd.
      rewrite length_setitem_present; [lia|].
      apply get_Some_In in Hget. unfold PyDict.keys.
      now apply (in_map fst) in Hget.
    + rewrite (update_task_missing _ _ _ Hget). simpl. lia.
Qed.

(** X10.  The store holds one task per accepted creation: after any
    sequence of requests its size has grown by the number of creations that
    carried a valid task; no other request adds or removes a task. *)
Theorem store_size (rs : list Spec.request) (db : TASKS_DB) :
  length (Spec.serve_all rs db) = (length db + Trace.accepted_creates rs)%nat.
Proof.
  unfold Spec.serve_all. revert db.
  induction rs as [|r rs IH]; intros db; simpl fold_left.
  - simpl. lia.
  - rewrite IH, serve_length.
    destruct r; simpl; lia.
Qed.

Lemma model_copy_keeps_types stored task_data :
  TaskInternal.well_typed stored = true ->
  Patch.keeps_types task_data = true ->
  TaskInternal.well_typed (model_copy stored (model_dump_exclude_unset task_data))
  = true.
Proof.
  unfold TaskInternal.well_typed, Patch.keeps_types.
  destruct stored as [i [t|] d [p|] c]; simpl; try discriminate.
  intros _. now destruct task_data as [[[t'|]|] [d'|] [[p'|]|]].
Qed.

Lemma serve_keeps_types r db :
  Trace.keeps_types r = true ->
  Forall (fun t => TaskInternal.well_typed t = true) (PyDict.values db) ->
  Forall (fun t => TaskInternal.well_typed t = true) (PyDict.values (Spec.serve r db)).
Proof.
  intros Hr HF. destruct r; simpl in *.
  - destruct (TaskCreate.validate task) eqn:Hv.
    + rewrite create_task_valid by assumption. cbv zeta. simpl snd.
      now apply values_setitem_Forall.
    + now rewrite create_task_invalid by assumption.
  - now rewrite get_task_run.
  - assumption.
  - destruct (PyDict.get task_id db) as [stored|] eqn:Hget.
    + rewrite (update_task_found _ _ _ Hget). simpl snd.
      apply values_setitem_Forall; [assumption|].
      apply model_copy_keeps_types; [|assumption].
      rewrite Forall_forall in HF. apply HF.
      now apply (get_Some_values task_id).
    + now rewrite (update_task_missing _ _ _ Hget).
Qed.

(** X11.  As long as no patch sets a title or a priority to null, every
    store reached from the empty one holds well-typed tasks only, and every
    listing on it returns: no parameters make it raise. *)
Theorem typed_requests_keep_listing_total (rs : list Spec.request) :
  forallb Trace.keeps_types rs = true ->
  let db := Spec.serve_all rs (PyDict.empty TaskInternal.t) in
  Spec.well_typed (PyDict.values db) = true
  /\ forall min_priority query cookie,
       exists out, list_tasks min_priority query cookie db = (inr out, db).
Proof.
  intros Hrs db.
  assert (WT : Spec.well_typed (PyDict.values db) = true).
  { unfold Spec.well_typed. apply forallb_forall. apply Forall_forall.
    subst db. unfold Spec.serve_all.
    assert (H0 : Forall (fun t => TaskInternal.well_typed t = true)
                   (PyDict.values (PyDict.empty TaskInternal.t))) by constructor.
    revert H0 Hrs. generalize (PyDict.empty TaskInternal.t).
    induction rs as [|r rs IH]; intros d H0 Hrs; simpl in *; [assumption|].
    apply andb_true_iff in Hrs as [Hr Hrs].
    apply IH; [|assumption]. now apply serve_keeps_types. }
  split; [assumption|].
  intros min_priority query cookie. rewrite list_tasks_run.
  destruct (filter_results_total _ min_priority query cookie WT) as [out Hout].
  exists out. now rewrite Hout.
Qed.

Lemma model_copy_in_range stored task_data :
  Trace.in_range stored -> Patch.validate task_data = true ->
  Trace.in_range (model_copy stored (model_dump_exclude_unset task_data)).
Proof.
  unfold Trace.in_range, Patch.validate.
  destruct stored as [i t d p c]; simpl. intros [Ht Hp] Hv.
  apply andb_true_iff in Hv as [Hvt Hvp].
  destruct task_data as [[[t'|]|] [d'|] [[p'|]|]]; simpl in *;
    (split; [intros title [= <-] || (intros title E; try discriminate E; now apply Ht)
            | intros q [= <-] || (intros q E; try discriminate E; now apply Hp)]);
    try (now apply Nat.leb_le);
    try (apply andb_true_iff in Hvp as [H1 H2]; apply Z.leb_le in H1, H2; lia).
Qed.

Lemma serve_in_range r db :
  Trace.validated r = true ->
  Forall Trace.in_range (PyDict.values db) ->
  Forall Trace.in_range (PyDict.values (Spec.serve r db)).
Proof.
  intros Hr HF. destruct r; simpl in *.
  - destruct (TaskCreate.validate task) eqn:Hv.
    + rewrite create_task_valid by assumption. cbv zeta. simpl snd.
      apply values_setitem_Forall; [assumption|].
      unfold TaskCreate.validate in Hv.
      apply andb_true_iff in Hv as [Hv H5]. apply andb_true_iff in Hv as [H3 H1].
      split; simpl.
      * intros title [= <-]. now apply Nat.leb_le.
      * intros p [= <-]. apply Z.leb_le in H1, H5. lia.
    + now rewrite create_task_invalid by assumption.
  - now rewrite get_task_run.
  - assumption.
  - destruct (PyDict.get task_id db) as [stored|] eqn:Hget.
    + rewrite (update_task_found _ _ _ Hget). simpl snd.
      apply values_setitem_Forall; [assumption|].
      apply model_copy_in_range; [|assumption].
      rewrite Forall_forall in HF. apply HF.
      now apply (get_Some_values task_id).
    + now rewrite (update_task_missing _ _ _ Hget).
Qed.

(** X12.  When every patch payload passed the constraints of [TaskUpdate],
    every task of every store reached from the empty one has a title of
    three characters or more (or none) and a priority between 1 and 5 (or
    none); so a listing with a threshold above 5 returns no task. *)
Theorem validated_requests_keep_ranges (rs : list Spec.request) :
  forallb Trace.validated rs = true ->
  let db := Spec.serve_all rs (PyDict.empty TaskInternal.t) in
  (forall t, In t (PyDict.values db) -> Trace.in_range t)
  /\ forall min_priority query cookie P out,
       Spec.effective_min_priority min_priority cookie = Some P -> 5 < P ->
       fst (list_tasks min_priority query cookie db) = inr out -> out = [].
Proof.
  intros Hrs db.
  assert (HF : Forall Trace.in_range (PyDict.values db)).
  { subst db. unfold Spec.serve_all.
    assert (H0 : Forall Trace.in_range
                   (PyDict.values (PyDict.empty TaskInternal.t))) by constructor.
    revert H0 Hrs. generalize (PyDict.empty TaskInternal.t).
    induction rs as [|r rs IH]; intros d H0 Hrs; simpl in *; [assumption|].
    apply andb_true_iff in Hrs as [Hr Hrs].
    apply IH; [|assumption]. now apply serve_in_range. }
  rewrite Forall_forall in HF. split; [exact HF|].
  intros min_priority query cookie P out Heff HP.
  rewrite list_tasks_run. simpl fst. intros Hout.
  destruct (filter_results_inr _ _ _ _ Hout) as [_ M].
  destruct out as [|t out]; [reflexivity|]. exfalso.
  destruct (proj1 (M t) (or_introl eq_refl)) as (Hin & Hp & _).
  destruct (Hp P Heff) as (p & Hpt & Hle).
  destruct (HF t Hin) as [_ Hr]. specialize (Hr p Hpt). lia.
Qed.

End Traces.



(* ===================================================================== *)
(** * Preferences: from [POST /preferences] to [GET /tasks] *)
(* ===================================================================== *)

Lemma decimal_str_of_int (z : Z) :
  Preferences.decimal (Preferences.str_of_int z) = Request.int_text z.
Proof.
  unfold Preferences.decimal, Preferences.str_of_int, Py.lit.
  rewrite map_map.
  rewrite (map_ext _ (fun a => a)) by (intros a; apply ascii_N_embedding).
  rewrite map_id, string_of_list_ascii_of_string, NilEmpty.isi.
  now rewrite DecimalZ.of_to.
Qed.

Lemma POST_preferences_out_of_range (p : Z) :
  ~ (1 <= p <= 5) ->
  Preferences.POST_preferences (Request.int_text p) = inl Py.RequestValidationError.
Proof.
  intros H. unfold Preferences.POST_preferences, Request.satisfies_int. simpl.
  destruct (Z.leb_spec 1 p), (Z.leb_spec p 5); simpl; try reflexivity. lia.
Qed.

Section PreferenceRoundTrip.
Import InMemory.
Context {L : Py.StrLower}.

Lemma GET_tasks_cookie_only (db : TASKS_DB) (c : Z) :
  GET_tasks None None (Some (Request.int_text c)) db
  = list_tasks None None (Some c) db.
Proof. reflexivity. Qed.

Lemma GET_tasks_both (db : TASKS_DB) (m c : Z) :
  1 <= m ->
  GET_tasks (Some (Request.int_text m)) None (Some (Request.int_text c)) db
  = list_tasks (Some m) None (Some c) db.
Proof.
  intros Hm. unfold GET_tasks, Request.optional_int, Request.satisfies_int.
  cbn -[Z.leb list_tasks]. destruct (Z.leb_spec 1 m); [reflexivity | lia].
Qed.

(** How the framework reads the text of a cookie as an integer; all that is
    asked of it is that it reads [str(n)] back as [n]. *)
Variable read_cookie : Py.str -> Request.raw_int.
Hypothesis read_cookie_str :
  forall n, read_cookie (Preferences.str_of_int n) = Request.int_text n.

(** X13.  A preference between 1 and 5 is answered with the single cookie
    [min_priority = str(p)].  Sent back with [GET /tasks], that cookie is
    accepted and [p] is the threshold of the listing when the request names
    no [min_priority]; when it names one (of at least 1), that one is the
    threshold and the cookie is ignored. *)
Theorem preference_round_trip (p : Z) (db : TASKS_DB) (q : option Py.str) :
  1 <= p <= 5 ->
  exists value,
    Preferences.POST_preferences (Request.int_text p)
    = inr [("min_priority"%string, value)]
    /\ value = Preferences.str_of_int p
    /\ GET_tasks None None (Some (read_cookie value)) db
       = list_tasks (Some p) None None db
    /\ forall m, 1 <= m ->
         GET_tasks (Some (Request.int_text m)) None (Some (read_cookie value)) db
         = list_tasks (Some m) None None db.
Proof.
  intros Hp. exists (Preferences.str_of_int p). split; [|split; [reflexivity|]].
  - unfold Preferences.POST_preferences, Request.satisfies_int. simpl.
    destruct (Z.leb_spec 1 p), (Z.leb_spec p 5); simpl; try lia. reflexivity.
  - rewrite read_cookie_str. split.
    + rewrite GET_tasks_cookie_only.
      rewrite !list_tasks_run. now rewrite filter_results_effective.
    + intros m Hm. rewrite GET_tasks_both by assumption.
      rewrite !list_tasks_run. now rewrite filter_results_effective.
Qed.

End PreferenceRoundTrip.

(* ===================================================================== *)
(** * The further theorems at concrete stores and tables *)
(* ===================================================================== *)

Lemma create_then_get_witness :
  let task := InMemory.TaskCreate.mk (Py.lit "abc") None 3 in
  InMemory.TaskCreate.validate task = true
  /\ exists new db',
       InMemory.create_task task 7 Spec.fixture = (inr new, db')
       /\ InMemory.get_task (InMemory.TaskInternal.task_id new) db' = (inr new, db')
       /\ forall k, k <> InMemory.TaskInternal.task_id new ->
                    fst (InMemory.get_task k db')
                    = fst (InMemory.get_task k Spec.fixture).
Proof.
  cbv zeta. split; [reflexivity|].
  apply (create_then_get Spec.fixture (InMemory.TaskCreate.mk (Py.lit "abc") None 3) 7).
  reflexivity.
Defined.

Lemma create_then_list_witness :
  let L := Py.lower_latin1 in
  let task := InMemory.TaskCreate.mk (Py.lit "abc") None 3 in
  let out := [Spec.task 2 "2"; Spec.task 3 "3"] in
  InMemory.TaskCreate.validate task = true
  /\ fst (InMemory.list_tasks (Some 2) None None Spec.fixture) = inr out
  /\ exists new db',
       InMemory.create_task task 7 Spec.fixture = (inr new, db')
       /\ let passes :=
            (forall P, Spec.effective_min_priority (Some 2) None = Some P ->
                       Spec.priority_at_least P new)
            /\ Spec.satisfies_query None new in
          (fst (InMemory.list_tasks (Some 2) None None db') = inr (out ++ [new])
           /\ passes)
          \/ (fst (InMemory.list_tasks (Some 2) None None db') = inr out
              /\ ~ passes).
Proof.
  cbv zeta. split; [reflexivity|]. split; [reflexivity|].
  apply (@create_then_list Py.lower_latin1 Spec.fixture
           (InMemory.TaskCreate.mk (Py.lit "abc") None 3) 7 (Some 2) None None
           [Spec.task 2 "2"; Spec.task 3 "3"]); reflexivity.
Defined.

Lemma update_task_empty_payload_witness :
  PyDict.get 2 Spec.fixture = Some (Spec.task 2 "2")
  /\ InMemory.update_task 2 Patch.empty Spec.fixture
     = (inr (Spec.task 2 "2"), Spec.fixture).
Proof.
  split; [reflexivity|].
  apply (@update_task_empty_payload Spec.fixture 2 (Spec.task 2 "2")). reflexivity.
Defined.

Lemma list_tasks_raises_witness :
  let L := Py.lower_latin1 in
  let db := [(1, InMemory.TaskInternal.mk 1 (Some (Py.lit "abc")) None None 0)] in
  Spec.effective_min_priority None (Some 1) <> None
  /\ (exists t, In t (PyDict.values db) /\ InMemory.TaskInternal.priority t = None)
  /\ fst (InMemory.list_tasks None None (Some 1) db) = inl Py.TypeError.
Proof.
  cbv zeta.
  assert (H1 : Spec.effective_min_priority None (Some 1) <> None) by discriminate.
  assert (H2 : exists t,
             In t (PyDict.values
                     [(1, InMemory.TaskInternal.mk 1 (Some (Py.lit "abc")) None None 0)])
             /\ InMemory.TaskInternal.priority t = None)
    by (eexists; split; [left; reflexivity | reflexivity]).
  split; [exact H1|]. split; [exact H2|].
  exact (proj1 (proj2 (@list_tasks_raises Py.lower_latin1 _ None None (Some 1)))
           H1 H2).
Defined.

Lemma null_patch_breaks_listing_witness :
  let L := Py.lower_latin1 in
  PyDict.get 2 Spec.fixture = Some (Spec.task 2 "2")
  /\ (let db' :=
        snd (InMemory.update_task 2
               (InMemory.TaskUpdate.mk None None (Some None)) Spec.fixture) in
      forall min_priority query cookie,
        Spec.effective_min_priority min_priority cookie <> None ->
        InMemory.list_tasks min_priority query cookie db' = (inl Py.TypeError, db')).
Proof.
  cbv zeta. split; [reflexivity|].
  exact (proj1 (@null_patch_breaks_listing Py.lower_latin1 Spec.fixture 2
                  (Spec.task 2 "2") eq_refl)).
Defined.

Lemma list_tasks_threshold_monotone_witness :
  let L := Py.lower_latin1 in
  let T := PyDict.values Spec.fixture in
  Spec.well_typed T = true /\ 2 <= 3
  /\ exists out1 out2,
       InMemory.filter_results T (Some 2) None None = inr out1
       /\ InMemory.filter_results T (Some 3) None None = inr out2
       /\ subsequence out2 out1
       /\ InMemory.filter_results out1 (Some 3) None None = inr out2.
Proof.
  cbv zeta. split; [reflexivity|]. split; [lia|].
  apply (@list_tasks_threshold_monotone Py.lower_latin1
           (PyDict.values Spec.fixture) 2 3 None None); [reflexivity | lia].
Defined.

Lemma list_tasks_tests_commute_witness :
  let L := Py.lower_latin1 in
  let T := PyDict.values Spec.fixture in
  let query := Some (Py.lit "title 2") in
  Spec.well_typed T = true
  /\ (r <- InMemory.filter_results T None query None ;;
      InMemory.filter_results r (Some 2) None None)
     = InMemory.filter_results T (Some 2) query None.
Proof.
  cbv zeta. split; [reflexivity|].
  exact (proj1 (@list_tasks_tests_commute Py.lower_latin1
                  (PyDict.values Spec.fixture) (Some 2)
                  (Some (Py.lit "title 2")) None eq_refl)).
Defined.

Lemma typed_requests_keep_listing_total_witness :
  let L := Py.lower_latin1 in
  let rs :=
    [Spec.POST_tasks (InMemory.TaskCreate.mk (Py.lit "abc") None 3) 7;
     Spec.PATCH_task 1
       (InMemory.TaskUpdate.mk None (Some None) (Some (Some 5)))] in
  forallb Trace.keeps_types rs = true
  /\ Spec.well_typed
       (PyDict.values (Spec.serve_all rs (PyDict.empty InMemory.TaskInternal.t)))
     = true.
Proof.
  cbv zeta. split; [reflexivity|].
  exact (proj1 (@typed_requests_keep_listing_total Py.lower_latin1
                  [Spec.POST_tasks (InMemory.TaskCreate.mk (Py.lit "abc") None 3) 7;
                   Spec.PATCH_task 1
                     (InMemory.TaskUpdate.mk None (Some None) (Some (Some 5)))]
                  eq_refl)).
Defined.

Lemma validated_requests_keep_ranges_witness :
  let L := Py.lower_latin1 in
  let rs :=
    [Spec.POST_tasks (InMemory.TaskCreate.mk (Py.lit "abc") None 3) 7;
     Spec.PATCH_task 1
       (InMemory.TaskUpdate.mk None (Some None) (Some (Some 5)))] in
  forallb Trace.validated rs = true
  /\ forall t,
       In t (PyDict.values (Spec.serve_all rs (PyDict.empty InMemory.TaskInternal.t))) ->
       Trace.in_range t.
Proof.
  cbv zeta. split; [reflexivity|].
  exact (proj1 (@validated_requests_keep_ranges Py.lower_latin1
                  [Spec.POST_tasks (InMemory.TaskCreate.mk (Py.lit "abc") None 3) 7;
                   Spec.PATCH_task 1
                     (InMemory.TaskUpdate.mk None (Some None) (Some (Some 5)))]
                  eq_refl)).
Defined.

Lemma preference_round_trip_witness :
  let L := Py.lower_latin1 in
  (forall n, Preferences.decimal (Preferences.str_of_int n) = Request.int_text n)
  /\ 1 <= 3 <= 5
  /\ exists value,
       Preferences.POST_preferences (Request.int_text 3)
       = inr [("min_priority"%string, value)]
       /\ value = Preferences.str_of_int 3
       /\ InMemory.GET_tasks None None (Some (Preferences.decimal value)) Spec.fixture
          = InMemory.list_tasks (Some 3) None None Spec.fixture
       /\ forall m, 1 <= m ->
            InMemory.GET_tasks (Some (Request.int_text m)) None
              (Some (Preferences.decimal value)) Spec.fixture
            = InMemory.list_tasks (Some m) None None Spec.fixture.
Proof.
  cbv zeta. split; [exact decimal_str_of_int|]. split; [lia|].
  apply (@preference_round_trip Py.lower_latin1 Preferences.decimal
           decimal_str_of_int 3 Spec.fixture None). lia.
Defined.




(* ===================================================================== *)
(** * Listings and lookups on the stores the routes build *)
(* ===================================================================== *)

Lemma values_setitem_map {V B} (f : V -> B) k v v0 (d : PyDict.t V) :
  PyDict.get k d = Some v0 -> f v = f v0 ->
  map f (PyDict.values (PyDict.setitem k v d)) = map f (PyDict.values d).
Proof.
  intros Hget Hf. induction d as [|[k' v'] d IH]; simpl in *; [discriminate|].
  destruct (Z.eqb_spec k k') as [->|Hne]; simpl.
  - injection Hget as ->. now rewrite Hf.
  - now rewrite IH.
Qed.

Lemma get_of_In {V} k v (d : PyDict.t V) :
  NoDup (PyDict.keys d) -> In (k, v) d -> PyDict.get k d = Some v.
Proof.
  induction d as [|[k' v'] d IH]; simpl; [contradiction|].
  intros Hnd Hin. inversion Hnd as [|? ? Hnot Hnd']; subst.
  destruct Hin as [[= -> ->]|Hin].
  - now rewrite Z.eqb_refl.
  - destruct (Z.eqb_spec k k') as [->|Hne]; [|now apply IH].
    exfalso. apply Hnot. unfold PyDict.keys. now apply (in_map fst) in Hin.
Qed.

Lemma first_ids_NoDup n : NoDup (Spec.first_ids n).
Proof.
  unfold Spec.first_ids. apply NoDup_map_NoDup_ForallPairs.
  - intros a b _ _ H. now apply Nat2Z.inj.
  - apply seq_NoDup.
Qed.

Section ListingAndLookup.
Import InMemory.
Context {L : Py.StrLower}.

(** X18.  A patch never moves a task: the identifiers and the creation
    times read off the store, in order, are the same before and after, so
    an unfiltered listing shows the tasks in the same places. *)
Theorem update_task_keeps_order
    (db : TASKS_DB) (task_id : Z) (task_data : TaskUpdate.t) :
  let db' := snd (update_task task_id task_data db) in
  map TaskInternal.task_id (PyDict.values db')
  = map TaskInternal.task_id (PyDict.values db)
  /\ map TaskInternal.created_at (PyDict.values db')
     = map TaskInternal.created_at (PyDict.values db)
  /\ PyDict.keys db' = PyDict.keys db.
Proof.
  intros db'. subst db'.
  destruct (PyDict.get task_id db) as [stored|] eqn:Hget.
  - rewrite (update_task_found _ _ _ Hget). simpl snd.
    destruct (model_copy_frame stored (model_dump_exclude_unset task_data))
      as [Hid Hat].
    split; [|split].
    + now apply values_setitem_map with stored.
    + now apply values_setitem_map with stored.
    + apply keys_setitem_present. apply get_Some_In in Hget.
      unfold PyDict.keys. now apply (in_map fst) in Hget.
  - rewrite (update_task_missing _ _ _ Hget). now repeat split.
Qed.

(** X19.  On every store reached from the empty one, whatever a listing
    returns can be fetched: looking up the identifier of a listed task
    returns that very task. *)
Theorem listed_tasks_can_be_fetched
    (rs : list Spec.request) (min_priority : option Z) (query : option Py.str)
    (cookie : option Z) (out : list TaskInternal.t) (t : TaskInternal.t) :
  let db := Spec.serve_all rs (PyDict.empty TaskInternal.t) in
  fst (list_tasks min_priority query cookie db) = inr out ->
  In t out ->
  get_task (TaskInternal.task_id t) db = (inr t, db).
Proof.
  intros db Hout Hin. rewrite list_tasks_run in Hout. simpl fst in Hout.
  assert (Hc : Spec.consistent db)
    by (apply serve_all_consistent; split; [reflexivity | constructor]).
  destruct Hc as [Hk Hf].
  apply (subsequence_In (proj1 (filter_results_inr _ _ _ _ Hout))) in Hin.
  unfold PyDict.values in Hin. apply in_map_iff in Hin as ([k t'] & Et & Hin).
  simpl in Et. subst t'.
  rewrite Forall_forall in Hf. pose proof (Hf _ Hin) as Ek. simpl in Ek.
  rewrite get_task_run, Ek.
  rewrite (get_of_In k t db); [reflexivity | | assumption].
  rewrite Hk. apply first_ids_NoDup.
Qed.

End ListingAndLookup.

Lemma listed_tasks_can_be_fetched_witness :
  let L := Py.lower_latin1 in
  let rs :=
    [Spec.POST_tasks (InMemory.TaskCreate.mk (Py.lit "abc") None 3) 7;
     Spec.POST_tasks (InMemory.TaskCreate.mk (Py.lit "xyz") None 5) 8] in
  let db := Spec.serve_all rs (PyDict.empty InMemory.TaskInternal.t) in
  let t := InMemory.TaskInternal.mk 2 (Some (Py.lit "xyz")) None (Some 5) 8 in
  fst (InMemory.list_tasks (Some 4) None None db) = inr [t]
  /\ In t [t]
  /\ InMemory.get_task 2 db = (inr t, db).
Proof.
  cbv zeta. split; [reflexivity|]. split; [now left|].
  apply (@listed_tasks_can_be_fetched Py.lower_latin1
           [Spec.POST_tasks (InMemory.TaskCreate.mk (Py.lit "abc") None 3) 7;
            Spec.POST_tasks (InMemory.TaskCreate.mk (Py.lit "xyz") None 5) 8]
           (Some 4) None None
           [InMemory.TaskInternal.mk 2 (Some (Py.lit "xyz")) None (Some 5) 8]
           (InMemory.TaskInternal.mk 2 (Some (Py.lit "xyz")) None (Some 5) 8));
    [reflexivity | now left].
Defined.

(* ===================================================================== *)
(** * The SQLite variant: what the pattern comparison matches *)
(* ===================================================================== *)

Lemma comprehension_pure {A} (p : A -> Exc bool) (f : A -> bool) xs :
  (forall x, In x xs -> p x = inr (f x)) -> comprehension p xs = inr (filter f xs).
Proof.
  induction xs as [|x xs IH]; simpl; intros H; [reflexivity|].
  rewrite (H x (or_introl eq_refl)), IH; [reflexivity|].
  intros y Hy. apply H. now right.
Qed.

Lemma comprehension_ext {A} (p p' : A -> Exc bool) xs :
  (forall x, In x xs -> p x = p' x) -> comprehension p xs = comprehension p' xs.
Proof.
  induction xs as [|x xs IH]; simpl; intros H; [reflexivity|].
  rewrite (H x (or_introl eq_refl)), IH; [reflexivity|].
  intros y Hy. apply H. now right.
Qed.

Section PatternCompare.
Import AsyncExample.

Lemma pattern_percent p s :
  pattern_compare (percent :: p) s
  = pattern_compare p s
    || match s with [] => false | _ :: s' => pattern_compare (percent :: p) s' end.
Proof. now destruct s. Qed.

Lemma pattern_plain c p s :
  Sqlite.plain c = true ->
  pattern_compare (c :: p) s
  = match s with
    | [] => false
    | d :: s' => (ascii_lower_cp c =? ascii_lower_cp d)%N && pattern_compare p s'
    end.
Proof.
  unfold Sqlite.plain. rewrite andb_true_iff, !negb_true_iff. intros [H1 H2].
  simpl. rewrite H1, H2. reflexivity.
Qed.

Lemma pattern_any s : pattern_compare [percent] s = true.
Proof.
  induction s as [|a s IH]; [reflexivity|].
  rewrite pattern_percent, IH. apply orb_true_r.
Qed.

Lemma pattern_percent_spec p s :
  pattern_compare (percent :: p) s = true
  <-> exists pre post, s = pre ++ post /\ pattern_compare p post = true.
Proof.
  induction s as [|a s IH]; rewrite pattern_percent, orb_true_iff.
  - split.
    + intros [H|H]; [|discriminate]. now exists [], [].
    + intros (pre & post & E & H). left.
      symmetry in E. apply app_eq_nil in E as [-> ->]. assumption.
  - rewrite IH. split.
    + intros [H|(pre & post & -> & H)].
      * now exists [], (a :: s).
      * now exists (a :: pre), post.
    + intros (pre & post & E & H). destruct pre as [|b pre]; simpl in E.
      * left. now subst post.
      * right. injection E as -> ->. now exists pre, post.
Qed.

Lemma pattern_plain_prefix q p s :
  Sqlite.wildcard_free q = true ->
  (pattern_compare (q ++ p) s = true
   <-> exists mid rest,
         s = mid ++ rest /\ sqlite_lower mid = sqlite_lower q
         /\ pattern_compare p rest = true).
Proof.
  unfold Sqlite.wildcard_free. revert s.
  induction q as [|c q IH]; intros s Hq; simpl app.
  - split.
    + intros H. now exists [], s.
    + intros (mid & rest & -> & E & H).
      destruct mid; [assumption | discriminate].
  - cbn [forallb] in Hq. apply andb_true_iff in Hq as [Hc Hq].
    rewrite (pattern_plain _ _ _ Hc). destruct s as [|d s].
    + split; [discriminate|]. intros (mid & rest & E & El & _).
      symmetry in E. apply app_eq_nil in E as [-> _]. discriminate.
    + rewrite andb_true_iff, N.eqb_eq, (IH s Hq). split.
      * intros (Hcd & mid & rest & -> & El & H).
        exists (d :: mid), rest. split; [reflexivity|]. split; [|assumption].
        simpl. now rewrite El, Hcd.
      * intros (mid & rest & E & El & H).
        destruct mid as [|m mid]; [discriminate|].
        simpl in E, El. injection E as <- ->. injection El as Hcd El.
        split; [now symmetry|]. now exists mid, rest.
Qed.

(** A pattern [%q%] without wildcards in [q] matches the strings [q]
    occurs in, up to the case of ASCII letters. *)
Lemma pattern_contains_plain q s :
  Sqlite.wildcard_free q = true ->
  (pattern_compare (percent :: q ++ [percent]) s = true
   <-> Sqlite.contains_ascii_ci q s).
Proof.
  intros Hq. unfold Sqlite.contains_ascii_ci. rewrite pattern_percent_spec. split.
  - intros (pre & post & -> & H).
    apply (pattern_plain_prefix _ _ _ Hq) in H as (mid & rest & -> & El & _).
    now exists pre, mid, rest.
  - intros (pre & mid & post & -> & El).
    exists pre, (mid ++ post). split; [reflexivity|].
    apply (pattern_plain_prefix _ _ _ Hq). exists mid, post.
    split; [reflexivity|]. split; [assumption | apply pattern_any].
Qed.

Lemma pattern_percents s t :
  forallb (N.eqb percent) s = true -> pattern_compare (s ++ [percent]) t = true.
Proof.
  induction s as [|c s IH]; simpl app; intros H.
  - apply pattern_any.
  - cbn [forallb] in H. apply andb_true_iff in H as [Hc H].
    apply N.eqb_eq in Hc. subst c.
    rewrite pattern_percent, (IH H). reflexivity.
Qed.

Lemma until_nul_nul_free s : Sqlite.nul_free s = true -> until_nul s = s.
Proof.
  unfold Sqlite.nul_free. induction s as [|c s IH]; simpl; [reflexivity|].
  intros H. apply andb_true_iff in H as [Hc H].
  apply negb_true_iff in Hc. now rewrite Hc, IH.
Qed.

Lemma nul_free_pattern other :
  Sqlite.nul_free other = true ->
  Sqlite.nul_free (percent :: other ++ [percent]) = true.
Proof.
  unfold Sqlite.nul_free. intros H. cbn [forallb]. simpl negb. simpl andb.
  induction other as [|c other IH]; [reflexivity|].
  cbn [forallb app] in *. apply andb_true_iff in H as [Hc H].
  now rewrite Hc, IH.
Qed.

Lemma percents_nul_free s :
  forallb (N.eqb percent) s = true -> Sqlite.nul_free s = true.
Proof.
  unfold Sqlite.nul_free. induction s as [|c s IH]; cbn [forallb]; [reflexivity|].
  intros H. apply andb_true_iff in H as [Hc H].
  apply N.eqb_eq in Hc. subst c. now rewrite IH.
Qed.

Lemma percents_encodable s :
  forallb (N.eqb percent) s = true -> encodable s = true.
Proof.
  unfold encodable. induction s as [|c s IH]; cbn [forallb]; [reflexivity|].
  intros H. apply andb_true_iff in H as [Hc H].
  apply N.eqb_eq in Hc. subst c. now rewrite IH.
Qed.

End PatternCompare.

(* ===================================================================== *)
(** * The SQLite variant: the listing *)
(* ===================================================================== *)

Section SqliteListing.
Import AsyncExample.
Context {L : Py.StrLower}.

Lemma truth_of_bool b : truth (of_bool b) = b.
Proof. now destruct b. Qed.

Lemma truth_lower_bool b : truth (lower_value (of_bool b)) = b.
Proof. now destruct b. Qed.

Lemma like_fits other s :
  Sqlite.pattern_fits other = true ->
  like (percent :: other ++ [percent]) s
  = inr (pattern_compare (until_nul (percent :: other ++ [percent])) (until_nul s)).
Proof.
  unfold like, Sqlite.pattern_fits. intros H.
  now rewrite N.ltb_antisym, H.
Qed.



(** The criteria of the statement: the threshold when there is one, then
    the title test when the query is not empty. *)
Lemma whereclause_db_query min_priority query cookie :
  Sql.whereclause (db_query min_priority query cookie)
  = match Spec.effective_min_priority min_priority cookie with
    | Some P => [Sql.Priority_ge P]
    | None => []
    end
    ++ match query with
       | Some q =>
           if Py.truthy query
           then [Sql.Lower_of (Sql.Contains Sql.Title (Py.lower q))]
           else []
       | None => []
       end.
Proof.
  unfold db_query.
  destruct min_priority as [P|], cookie as [c|], query as [[|a q]|]; reflexivity.
Qed.

Lemma eval_lower_contains row other :
  Sqlite.pattern_fits other = true ->
  eval row (Sql.Lower_of (Sql.Contains Sql.Title other))
  = inr (lower_value
           (of_bool (pattern_compare (until_nul (percent :: other ++ [percent]))
                       (until_nul (StoredTask.title row))))).
Proof. intros H. cbn [eval eval_text]. now rewrite (like_fits _ _ H). Qed.

Lemma holds_all_cons row c criteria :
  holds_all row (c :: criteria)
  = (v <- eval row c ;; if truth v then holds_all row criteria else ret false).
Proof. reflexivity. Qed.

Lemma holds_all_priority row P criteria :
  holds_all row (Sql.Priority_ge P :: criteria)
  = if P <=? StoredTask.priority row then holds_all row criteria else inr false.
Proof.
  rewrite holds_all_cons. cbn [eval]. unfold bind, ret, Monad_Exc.
  rewrite truth_of_bool. reflexivity.
Qed.

Lemma holds_all_lower_contains row other criteria :
  Sqlite.pattern_fits other = true ->
  holds_all row (Sql.Lower_of (Sql.Contains Sql.Title other) :: criteria)
  = if pattern_compare (until_nul (percent :: other ++ [percent]))
         (until_nul (StoredTask.title row))
    then holds_all row criteria else inr false.
Proof.
  intros H. rewrite holds_all_cons, (eval_lower_contains _ _ H).
  unfold bind, ret, Monad_Exc. rewrite truth_lower_bool. reflexivity.
Qed.

Lemma holds_all_keeps row min_priority query cookie :
  Sqlite.executable (Spec.effective_min_priority min_priority cookie) query = true ->
  holds_all row (Sql.whereclause (db_query min_priority query cookie))
  = inr (Sqlite.keeps (Spec.effective_min_priority min_priority cookie) query row).
Proof.
  rewrite whereclause_db_query. unfold Sqlite.executable, Sqlite.keeps.
  destruct (Spec.effective_min_priority min_priority cookie) as [P|];
    destruct query as [q|]; try destruct (Py.truthy (Some q));
    intros H; cbn [app];
    try (apply andb_true_iff in H as [HP H]);
    try (apply andb_true_iff in H as [He Hf]);
    rewrite ?holds_all_priority, ?(holds_all_lower_contains _ _ _ Hf);
    try set (b := pattern_compare _ _);
    try destruct (P <=? StoredTask.priority row);
    try destruct b; reflexivity.
Qed.

Lemma bind_parameters_ok min_priority query cookie :
  Sqlite.executable (Spec.effective_min_priority min_priority cookie) query = true ->
  bind_parameters (Sql.whereclause (db_query min_priority query cookie)) = inr tt.
Proof.
  rewrite whereclause_db_query. unfold Sqlite.executable.
  destruct (Spec.effective_min_priority min_priority cookie) as [P|];
    destruct query as [q|]; try destruct (Py.truthy (Some q));
    intros H; cbn [app bind_parameters bind_criterion];
    repeat match goal with
           | H : _ && _ = true |- _ => apply andb_true_iff in H as [? ?]
           end;
    repeat match goal with
           | H : ?b = true |- context [if ?b then _ else _] => rewrite H; simpl
           end;
    reflexivity.
Qed.

(** The listing of the SQLite variant as a filter on the rows, when its
    parameters can be bound and its pattern compared. *)
Lemma async_list_tasks_filter todos min_priority query cookie :
  Sqlite.executable (Spec.effective_min_priority min_priority cookie) query = true ->
  list_tasks todos min_priority query cookie
  = inr (filter (Sqlite.keeps (Spec.effective_min_priority min_priority cookie) query)
           todos).
Proof.
  intros H. unfold list_tasks, scalars_all.
  rewrite (bind_parameters_ok _ _ _ H). simpl bind.
  apply comprehension_pure. intros row _. now apply holds_all_keeps.
Qed.

(** A statement without ORDER BY returns rows in the order of the scan. *)
Lemma async_list_tasks_subsequence todos min_priority query cookie out :
  list_tasks todos min_priority query cookie = inr out -> subsequence out todos.
Proof.
  unfold list_tasks, scalars_all.
  destruct (bind_parameters _) as [e|[]]; simpl; [discriminate|].
  intros H. destruct (comprehension_inr _ _ H) as [-> _].
  apply filter_subsequence.
Qed.



(** X16.  In the SQLite variant a query whose lowered form consists of [%]
    characters only, and makes a pattern within the engine's limit, filters
    nothing: the listing is the one without a query, for every threshold
    and cookie (an [OverflowError] of the threshold included). *)
Theorem async_list_tasks_percent_query
    (todos : list StoredTask.t)
    (min_priority : option Z) (Q : Py.str) (cookie : option Z) :
  forallb (N.eqb percent) (Py.lower Q) = true ->
  Sqlite.pattern_fits (Py.lower Q) = true ->
  list_tasks todos min_priority (Some Q) cookie
  = list_tasks todos min_priority None cookie.
Proof.
  intros HQ Hf. unfold list_tasks, scalars_all. rewrite !whereclause_db_query.
  destruct (Py.truthy (Some Q)); [|reflexivity].
  assert (Hb : bind_criterion (Sql.Lower_of (Sql.Contains Sql.Title (Py.lower Q)))
               = inr tt)
    by (cbn [bind_criterion]; now rewrite (percents_encodable _ HQ)).
  assert (Hh : forall row criteria,
             holds_all row
               (Sql.Lower_of (Sql.Contains Sql.Title (Py.lower Q)) :: criteria)
             = holds_all row criteria).
  { intros row criteria. rewrite (holds_all_lower_contains _ _ _ Hf).
    rewrite (until_nul_nul_free _ (nul_free_pattern _ (percents_nul_free _ HQ))).
    rewrite pattern_percent, (pattern_percents _ _ HQ). reflexivity. }
  set (crit := Sql.Lower_of (Sql.Contains Sql.Title (Py.lower Q))) in *.
  set (thr := match Spec.effective_min_priority min_priority cookie with
              | Some P => [Sql.Priority_ge P]
              | None => []
              end).
  assert (E1 : bind_parameters (thr ++ [crit]) = bind_parameters (thr ++ [])).
  { subst thr.
    destruct (Spec.effective_min_priority min_priority cookie) as [P|];
      cbn [app bind_parameters]; rewrite Hb; [|reflexivity].
    now destruct (bind_criterion (Sql.Priority_ge P)) as [e|[]]. }
  assert (E2 : forall row, holds_all row (thr ++ [crit]) = holds_all row (thr ++ [])).
  { intros row. subst thr.
    destruct (Spec.effective_min_priority min_priority cookie) as [P|];
      cbn [app]; [rewrite !holds_all_priority|]; now rewrite Hh. }
  rewrite E1.
  rewrite (@comprehension_ext _ (fun row => holds_all row (thr ++ [crit]))
             (fun row => holds_all row (thr ++ [])) todos (fun row _ => E2 row)).
  reflexivity.
Qed.

(** X20.  In the SQLite variant an effective threshold outside the signed
    64-bit range cannot be bound: the listing raises [OverflowError],
    whatever the table and the query. *)
Theorem async_list_tasks_overflow
    (todos : list StoredTask.t)
    (min_priority : option Z) (query : option Py.str) (cookie : option Z) (P : Z) :
  Spec.effective_min_priority min_priority cookie = Some P ->
  fits_int64 P = false ->
  list_tasks todos min_priority query cookie = inl Py.OverflowError.
Proof.
  intros HP Hf. unfold list_tasks, scalars_all.
  rewrite whereclause_db_query, HP. cbn [app bind_parameters bind_criterion].
  now rewrite Hf.
Qed.

End SqliteListing.

(* ===================================================================== *)
(** * The in-memory and the SQLite variant side by side *)
(* ===================================================================== *)

Section Agreement.
Import AsyncExample.

Lemma lower_cp_ascii c : (c <? 128)%N = true -> Py.lower_cp c = ascii_lower_cp c.
Proof.
  intros Hc. apply N.ltb_lt in Hc. unfold Py.lower_cp, ascii_lower_cp.
  destruct ((65 <=? c) && (c <=? 90))%N; [reflexivity|].
  destruct (N.leb_spec 192 c); [lia | reflexivity].
Qed.

Lemma lower_latin1_ascii s :
  Sqlite.ascii_only s = true -> Py.lower_latin1 s = sqlite_lower s.
Proof.
  unfold Sqlite.ascii_only, Py.lower_latin1, sqlite_lower.
  induction s as [|c s IH]; cbn [forallb map]; [reflexivity|].
  intros H. apply andb_true_iff in H as [Hc H].
  apply andb_true_iff in Hc as [_ Hc].
  now rewrite (lower_cp_ascii _ Hc), IH.
Qed.

Lemma ascii_only_nul_free s : Sqlite.ascii_only s = true -> Sqlite.nul_free s = true.
Proof.
  unfold Sqlite.ascii_only, Sqlite.nul_free.
  induction s as [|c s IH]; cbn [forallb]; [reflexivity|].
  intros H. apply andb_true_iff in H as [Hc H].
  apply andb_true_iff in Hc as [Hc _]. now rewrite Hc, IH.
Qed.

Lemma ascii_lower_cp_idem c : ascii_lower_cp (ascii_lower_cp c) = ascii_lower_cp c.
Proof.
  unfold ascii_lower_cp.
  destruct ((65 <=? c) && (c <=? 90))%N eqn:E.
  - apply andb_true_iff in E as [E1 E2]. apply N.leb_le in E1, E2.
    destruct (N.leb_spec (c + 32) 90); [lia|].
    now rewrite andb_false_r.
  - now rewrite E.
Qed.

Lemma sqlite_lower_idem s : sqlite_lower (sqlite_lower s) = sqlite_lower s.
Proof.
  unfold sqlite_lower. rewrite map_map. apply map_ext.
  intros c. apply ascii_lower_cp_idem.
Qed.

Lemma plain_ascii_lower c : Sqlite.plain (ascii_lower_cp c) = Sqlite.plain c.
Proof.
  unfold Sqlite.plain, ascii_lower_cp, percent, underscore.
  destruct ((65 <=? c) && (c <=? 90))%N eqn:E; [|reflexivity].
  apply andb_true_iff in E as [E1 E2]. apply N.leb_le in E1, E2.
  destruct (N.eqb_spec (c + 32) 37), (N.eqb_spec (c + 32) 95),
    (N.eqb_spec c 37), (N.eqb_spec c 95); simpl; try reflexivity; lia.
Qed.

Lemma wildcard_free_lower s :
  Sqlite.wildcard_free (sqlite_lower s) = Sqlite.wildcard_free s.
Proof.
  unfold Sqlite.wildcard_free, sqlite_lower.
  induction s as [|c s IH]; cbn [forallb map]; [reflexivity|].
  now rewrite plain_ascii_lower, IH.
Qed.

Lemma nul_free_lower s : Sqlite.nul_free (sqlite_lower s) = Sqlite.nul_free s.
Proof.
  unfold Sqlite.nul_free, sqlite_lower.
  induction s as [|c s IH]; cbn [forallb map]; [reflexivity|].
  rewrite IH. f_equal. f_equal. unfold ascii_lower_cp.
  destruct ((65 <=? c) && (c <=? 90))%N eqn:E; [|reflexivity].
  apply andb_true_iff in E as [E1 E2]. apply N.leb_le in E1, E2.
  destruct (N.eqb_spec (c + 32) 0), (N.eqb_spec c 0); try reflexivity; lia.
Qed.

(** Containment after folding both sides, and containment up to ASCII case,
    are the same thing. *)
Lemma substring_lower_iff Q title :
  Py.substring (sqlite_lower Q) (sqlite_lower title)
  <-> Sqlite.contains_ascii_ci (sqlite_lower Q) title.
Proof.
  unfold Py.substring, Sqlite.contains_ascii_ci. rewrite sqlite_lower_idem. split.
  - intros (pre & post & E). unfold sqlite_lower in E at 1.
    apply map_eq_app in E as (pre' & rest & -> & Hpre & E).
    apply map_eq_app in E as (mid & post' & -> & Hmid & Hpost).
    now exists pre', mid, post'.
  - intros (pre & mid & post & -> & E).
    exists (sqlite_lower pre), (sqlite_lower post).
    unfold sqlite_lower in *. now rewrite !map_app, E.
Qed.

Lemma contains_pattern_compare Q title :
  Sqlite.ascii_only Q = true -> Sqlite.wildcard_free Q = true ->
  Sqlite.ascii_only title = true ->
  Py.contains (Py.lower_latin1 Q) (Py.lower_latin1 title)
  = pattern_compare (until_nul (percent :: Py.lower_latin1 Q ++ [percent]))
      (until_nul title).
Proof.
  intros HQ HW HT. apply eq_true_iff_eq.
  rewrite contains_spec, (lower_latin1_ascii _ HQ), (lower_latin1_ascii _ HT).
  rewrite (until_nul_nul_free title) by now apply ascii_only_nul_free.
  rewrite until_nul_nul_free
    by (apply nul_free_pattern; rewrite nul_free_lower;
        now apply ascii_only_nul_free).
  rewrite pattern_contains_plain by now rewrite wildcard_free_lower.
  apply substring_lower_iff.
Qed.

(** X17.  On titles of ASCII characters (U+0001..U+007F), with no query or a
    query of such characters that holds no [%] and no [_] and makes a
    pattern within the engine's limit, and with an effective threshold that
    is a 64-bit integer, the SQLite variant returns, and the in-memory
    variant lists the same tasks in the same order. *)
Theorem variants_agree_on_ascii
    (todos : list StoredTask.t) (min_priority : option Z)
    (query : option Py.str) (cookie : option Z) :
  forallb (fun row => Sqlite.ascii_only (StoredTask.title row)) todos = true ->
  match query with
  | Some Q => Sqlite.ascii_only Q && Sqlite.wildcard_free Q
  | None => true
  end = true ->
  Sqlite.executable (L := Py.lower_latin1)
    (Spec.effective_min_priority min_priority cookie) query = true ->
  exists out,
    list_tasks (L := Py.lower_latin1) todos min_priority query cookie = inr out
    /\ InMemory.list_tasks (L := Py.lower_latin1) min_priority query cookie
         (Sqlite.store_of todos)
       = (inr (map Sqlite.as_task out), Sqlite.store_of todos).
Proof.
  intros HT HQ Hx. eexists. split; [now apply async_list_tasks_filter|].
  rewrite list_tasks_run. f_equal.
  assert (Hv : PyDict.values (Sqlite.store_of todos) = map Sqlite.as_task todos).
  { unfold PyDict.values, Sqlite.store_of. rewrite map_map. reflexivity. }
  rewrite Hv.
  assert (WT : Spec.well_typed (map Sqlite.as_task todos) = true).
  { unfold Spec.well_typed. apply forallb_forall. intros t Hin.
    apply in_map_iff in Hin as (row & <- & _). reflexivity. }
  rewrite (filter_results_filter _ min_priority query cookie WT).
  rewrite filter_map_swap. do 2 f_equal.
  apply filter_ext_in. intros row Hin.
  rewrite forallb_forall in HT. specialize (HT row Hin).
  unfold Filter.keeps, Sqlite.keeps, holds, InMemory.priority_ge,
    InMemory.title_matches.
  cbn [Sqlite.as_task InMemory.TaskInternal.priority InMemory.TaskInternal.title].
  f_equal. destruct query as [Q|]; [|reflexivity].
  destruct (Py.truthy (Some Q)); [|reflexivity].
  apply andb_true_iff in HQ as [HQ HW].
  now apply contains_pattern_compare.
Qed.

End Agreement.

(* ===================================================================== *)
(** * The SQLite variant and the precedence rule at concrete inputs *)
(* ===================================================================== *)

(** A pattern beyond the engine's limit is refused as soon as it is
    compared with a row. *)
Lemma async_list_tasks_pattern_too_long
    {L : Py.StrLower} (row : AsyncExample.StoredTask.t)
    (todos : list AsyncExample.StoredTask.t) (Q : Py.str) :
  Py.truthy (Some Q) = true ->
  AsyncExample.encodable (Py.lower Q) = true ->
  Sqlite.pattern_fits (Py.lower Q) = false ->
  AsyncExample.list_tasks (row :: todos) None (Some Q) None
  = inl Py.OperationalError.
Proof.
  intros HQ He Hf. unfold AsyncExample.list_tasks, AsyncExample.scalars_all.
  rewrite whereclause_db_query, HQ.
  cbn [Spec.effective_min_priority app AsyncExample.bind_parameters
       AsyncExample.bind_criterion].
  rewrite He. cbn [comprehension AsyncExample.holds_all AsyncExample.eval
                   AsyncExample.eval_text].
  unfold AsyncExample.like. unfold Sqlite.pattern_fits in Hf.
  rewrite N.ltb_antisym, Hf. reflexivity.
Qed.

(** The edges of the engine: a threshold of 2^63 is refused when it is
    bound, and LIKE stops at U+0000, in the pattern and in the title. *)
Example async_engine_edges :
  let L := Py.lower_latin1 in
  AsyncExample.list_tasks [Spec.row 1 (Py.lit "abc")] (Some (2 ^ 63)) None None
  = inl Py.OverflowError
  /\ AsyncExample.list_tasks [Spec.row 1 (Py.lit "abc")] (Some (2 ^ 63 - 1)) None None
     = inr []
  /\ AsyncExample.list_tasks [Spec.row 1 (Py.lit "xa")] None
       (Some [97; 0; 98]%N) None
     = inr [Spec.row 1 (Py.lit "xa")]
  /\ AsyncExample.list_tasks [Spec.row 1 [97; 0; 98; 99; 100]%N] None
       (Some (Py.lit "bcd")) None
     = inr [].
Proof.
  cbv zeta. split; [|split; [|split]]; vm_compute; reflexivity.
Qed.

Lemma min_priority_precedence_witness :
  let L := Py.lower_latin1 in
  Spec.well_typed (PyDict.values Spec.fixture) = true
  /\ exists out,
       InMemory.list_tasks (Some 2) None (Some 3) Spec.fixture
       = (inr out, Spec.fixture)
       /\ InMemory.list_tasks (Some 2) None None Spec.fixture
          = (inr out, Spec.fixture)
       /\ forall t, In t out <->
                    In t (PyDict.values Spec.fixture)
                    /\ Spec.priority_at_least 2 t
                    /\ Spec.satisfies_query None t.
Proof.
  cbv zeta. split; [reflexivity|].
  exact (proj1 (proj2 (@min_priority_precedence Py.lower_latin1 Spec.fixture
                         None 2 3 eq_refl))).
Defined.



Lemma async_list_tasks_percent_query_witness :
  let L := Py.lower_latin1 in
  let todos := [Spec.row 1 (Py.lit "Abc"); Spec.row 2 (Py.lit "xyz")] in
  forallb (N.eqb AsyncExample.percent) (Py.lower (Py.lit "%%%")) = true
  /\ Sqlite.pattern_fits (Py.lower (Py.lit "%%%")) = true
  /\ AsyncExample.list_tasks todos None (Some (Py.lit "%%%")) None
     = AsyncExample.list_tasks todos None None None.
Proof.
  cbv zeta. split; [reflexivity|]. split; [reflexivity|].
  apply (@async_list_tasks_percent_query Py.lower_latin1
           [Spec.row 1 (Py.lit "Abc"); Spec.row 2 (Py.lit "xyz")] None
           (Py.lit "%%%") None); reflexivity.
Defined.

Lemma async_list_tasks_overflow_witness :
  let L := Py.lower_latin1 in
  Spec.effective_min_priority None (Some (2 ^ 63)) = Some (2 ^ 63)
  /\ AsyncExample.fits_int64 (2 ^ 63) = false
  /\ AsyncExample.list_tasks [Spec.row 1 (Py.lit "abc")] None None (Some (2 ^ 63))
     = inl Py.OverflowError.
Proof.
  cbv zeta. split; [reflexivity|]. split; [reflexivity|].
  apply (@async_list_tasks_overflow Py.lower_latin1
           [Spec.row 1 (Py.lit "abc")] None None (Some (2 ^ 63)) (2 ^ 63));
    reflexivity.
Defined.

Lemma variants_agree_on_ascii_witness :
  let todos := [Spec.row 1 (Py.lit "Learn FastAPI"); Spec.row 2 (Py.lit "xyz")] in
  let query := Some (Py.lit "FAST") in
  forallb (fun row => Sqlite.ascii_only (AsyncExample.StoredTask.title row)) todos
  = true
  /\ Sqlite.ascii_only (Py.lit "FAST") && Sqlite.wildcard_free (Py.lit "FAST") = true
  /\ Sqlite.executable (L := Py.lower_latin1)
       (Spec.effective_min_priority (Some 1) None) query = true
  /\ exists out,
       AsyncExample.list_tasks (L := Py.lower_latin1) todos (Some 1) query None
       = inr out
       /\ InMemory.list_tasks (L := Py.lower_latin1) (Some 1) query None
            (Sqlite.store_of todos)
          = (inr (map Sqlite.as_task out), Sqlite.store_of todos).
Proof.
  cbv zeta. do 3 (split; [reflexivity|]).
  apply (variants_agree_on_ascii
           [Spec.row 1 (Py.lit "Learn FastAPI"); Spec.row 2 (Py.lit "xyz")]
           (Some 1) (Some (Py.lit "FAST")) None); reflexivity.
Defined.
